(** * SQLiteKV: merge-on-write, expiry and one-time reads

    A shallow embedding of the two classes of the store:
    [SQLiteDatabase] (src/database.ts), which owns the SQLite handle and
    implements the value lifecycle, and [SQLiteKV] (src/kvstore.ts), the
    public wrapper that waits for initialisation and forwards to it.

    Conventions of the embedding.
    - A JavaScript value of [ValueType] (or [null]) is a [JsValue]; numbers
      are IEEE doubles in the Standard Library's [spec_float] form, objects
      are finite maps from property names to values.
    - The runtime's [JSON.stringify] and [JSON.parse] are modelled on the
      abstract syntax of the JSON text ([JsonText]), not on its characters.
    - The SQLite table is a finite map from the primary key to the other
      three columns ([Row]); [LIKE] is SQLite's pattern operator.
    - An [async] method is a function from the instance's state to an
      [Outcome]: the promise resolves with a result or rejects with the
      message of the thrown [Error], and in both cases leaves a state.
    - [Date.now()] is the argument [now] of the methods that read the
      clock; timestamps and time-to-live arguments are integers. *)

From Stdlib Require Import ZArith Ascii Floats.SpecFloat.
From stdpp Require Import gmap strings list fin_maps pretty.

#[local] Open Scope Z_scope.
#[local] Set Warnings "-register-all".

(** ** JavaScript values *)

Section JsValue_def.
#[local] Unset Elimination Schemes.

Inductive JsValue : Type :=
| JNull
| JBoolean (b : bool)
| JNumber (n : spec_float)
| JString (s : string)
| JArray (elements : list JsValue)
| JObject (props : gmap string JsValue).
End JsValue_def.

#[export] Instance JsValue_inhabited : Inhabited JsValue := populate JNull.

(** [typeof v]; an array and [null] are both ["object"]. *)
Definition typeof (v : JsValue) : string :=
  match v with
  | JNull => "object"
  | JBoolean _ => "boolean"
  | JNumber _ => "number"
  | JString _ => "string"
  | JArray _ => "object"
  | JObject _ => "object"
  end.

Definition Array_isArray (v : JsValue) : bool :=
  match v with JArray _ => true | _ => false end.

(** [v !== null] *)
Definition not_null (v : JsValue) : bool :=
  match v with JNull => false | _ => true end.

(** The own enumerable properties an object spread [{...v}] copies: those
    of an object, the elements of an array under their decimal indices,
    none for [null]. The [typeof] tests of [setWithExpiry] let nothing else
    reach a spread. *)
Definition index_props (l : list JsValue) : gmap string JsValue :=
  list_to_map (imap (fun (i : nat) (x : JsValue) => (pretty i, x)) l).

Definition own_props (v : JsValue) : gmap string JsValue :=
  match v with
  | JObject m => m
  | JArray l => index_props l
  | _ => ∅
  end.

(** [{...a, ...b}]: the properties of [b] win. *)
Definition spread2 (a b : JsValue) : JsValue :=
  JObject (own_props b ∪ own_props a).

(** [a.concat(b)] for an array [a]: an array argument is flattened one
    level, any other argument is appended as one element. The method is
    only called on arrays. *)
Definition concat (a b : JsValue) : JsValue :=
  match a, b with
  | JArray l, JArray l' => JArray (l ++ l')
  | JArray l, _ => JArray (l ++ [b])
  | _, _ => a
  end.

(** ** JSON text *)

Section JsonText_def.
#[local] Unset Elimination Schemes.

Inductive JsonText : Type :=
| TNull
| TBool (b : bool)
| TNumber (n : spec_float)
| TString (s : string)
| TArray (elements : list JsonText)
| TObject (members : gmap string JsonText).
End JsonText_def.

Definition Number_isFinite (n : spec_float) : bool :=
  match n with
  | S754_zero _ | S754_finite _ _ _ => true
  | S754_infinity _ | S754_nan => false
  end.

(** The number token [JSON.stringify] writes: ["null"] for [NaN] and the
    infinities, ["0"] for both zeros, the shortest decimal that reads back
    as the same double otherwise. *)
Definition stringify_number (n : spec_float) : JsonText :=
  match n with
  | S754_zero _ => TNumber (S754_zero false)
  | S754_finite _ _ _ => TNumber n
  | S754_infinity _ | S754_nan => TNull
  end.

Fixpoint JSON_stringify (v : JsValue) : JsonText :=
  match v with
  | JNull => TNull
  | JBoolean b => TBool b
  | JNumber n => stringify_number n
  | JString s => TString s
  | JArray l => TArray (map JSON_stringify l)
  | JObject m => TObject (JSON_stringify <$> m)
  end.

Fixpoint JSON_parse (t : JsonText) : JsValue :=
  match t with
  | TNull => JNull
  | TBool b => JBoolean b
  | TNumber n => JNumber n
  | TString s => JString s
  | TArray l => JArray (map JSON_parse l)
  | TObject m => JObject (JSON_parse <$> m)
  end.

(** ** The table and SQLite's LIKE *)

(** One row of [CREATE TABLE (key TEXT PRIMARY KEY, value TEXT,
    expiry INTEGER, one_time INTEGER DEFAULT 0)], without its key. A column
    holding SQL NULL is [None]. *)
Record Row : Type := mkRow {
  value : option JsonText;
  expiry : option Z;
  one_time : Z
}.

Abbreviation Table := (gmap string Row).

Definition is_upper (c : Ascii.ascii) : bool :=
  (65 <=? Ascii.nat_of_ascii c)%nat && (Ascii.nat_of_ascii c <=? 90)%nat.

Definition to_lower (c : Ascii.ascii) : Ascii.ascii :=
  if is_upper c then Ascii.ascii_of_nat (Ascii.nat_of_ascii c + 32) else c.

(** [str LIKE pat] without an ESCAPE clause: [%] matches any run of
    characters, [_] exactly one, every other character (the backslash
    included) itself, letters of ASCII without regard to case. Keys are
    taken to be ASCII text, one byte a character. *)
Fixpoint like (pat : string) : string -> bool :=
  match pat with
  | EmptyString => fun str => if str is EmptyString then true else false
  | String p pat' =>
      if Ascii.eqb p "%"%char then
        fix skip (str : string) : bool :=
          like pat' str ||
          match str with
          | EmptyString => false
          | String _ str' => skip str'
          end
      else if Ascii.eqb p "_"%char then
        fun str =>
          match str with
          | EmptyString => false
          | String _ str' => like pat' str'
          end
      else
        fun str =>
          match str with
          | EmptyString => false
          | String c str' => Ascii.eqb (to_lower p) (to_lower c) && like pat' str'
          end
  end.

(** [s.replace(/c/g, by)] for a one-character pattern. *)
Fixpoint replace_all (c : Ascii.ascii) (by_ : string) (s : string) : string :=
  match s with
  | EmptyString => EmptyString
  | String d s' =>
      if Ascii.eqb d c then by_ +:+ replace_all c by_ s'
      else String d (replace_all c by_ s')
  end.

(** Column [key] of [SELECT key FROM t], with or without
    [WHERE key LIKE pat]. *)
Definition select_keys (like_param : option string) (conn : Table) : list string :=
  let all := (map_to_list conn).*1 in
  match like_param with
  | None => all
  | Some pat => List.filter (like pat) all
  end.

(** ** Instances and asynchronous methods *)

(** The fields of a [SQLiteDatabase] that the storage methods read or
    assign. [db] is the [sqlite] handle, [None] while it is [null]; an open
    handle is identified with the table it gives access to. *)
Record Self : Type := mkSelf {
  db : option Table;
  autoCommit : bool;
  inTransaction : bool
}.

Definition set_db (conn : option Table) (this : Self) : Self :=
  mkSelf conn (autoCommit this) (inTransaction this).

Definition set_inTransaction (b : bool) (this : Self) : Self :=
  mkSelf (db this) (autoCommit this) b.

Inductive Outcome (A : Type) : Type :=
| Resolved (result : A) (this : Self)
| Rejected (message : string) (this : Self).

Arguments Resolved {A} result this.
Arguments Rejected {A} message this.

Definition Async (A : Type) : Type := Self -> Outcome A.

Definition resolve {A} (a : A) : Async A := fun this => Resolved a this.

Definition throw {A} (message : string) : Async A :=
  fun this => Rejected message this.

Definition bind {A B} (m : Async A) (k : A -> Async B) : Async B :=
  fun this =>
    match m this with
    | Resolved a this' => k a this'
    | Rejected message this' => Rejected message this'
    end.

Notation "x <- m ;; k" := (bind m (fun x => k))
  (at level 100, m at next level, right associativity).
Notation "m ;; k" := (bind m (fun _ => k))
  (at level 100, right associativity).

Definition read {A} (field : Self -> A) : Async A :=
  fun this => Resolved (field this) this.

Definition assign (update : Self -> Self) : Async unit :=
  fun this => Resolved tt (update this).

(** A statement sent through [this.db]: it reads and rewrites the table;
    on a [null] handle the property access itself throws. *)
Definition on_handle {A} (stmt : Table -> A * Table) : Async A :=
  fun this =>
    match db this with
    | Some conn => let '(a, conn') := stmt conn in Resolved a (set_db (Some conn') this)
    | None => Rejected "TypeError: Cannot read properties of null" this
    end.

Fixpoint mapM {A B} (f : A -> Async B) (l : list A) : Async (list B) :=
  match l with
  | [] => resolve []
  | x :: l' => y <- f x ;; ys <- mapM f l' ;; resolve (y :: ys)
  end.

(** ** src/database.ts *)

Module SQLiteDatabase.

(** [init()] opens the database file, whose table is [file], unless the
    handle is already open. *)
Definition init (file : Table) : Async unit :=
  conn <- read db ;;
  if conn is Some _ then resolve tt
  else assign (set_db (Some file)).

(** [COMMIT] leaves the table as the one connection of the instance sees
    it. *)
Definition commitTransaction : Async unit :=
  conn <- read db ;;
  if conn is None then throw "Database not initialized" else
  open <- read inTransaction ;;
  if open then
    on_handle (fun t => (tt, t)) ;;
    assign (set_inTransaction false)
  else resolve tt.

(** [this.db.run("BEGIN TRANSACTION")]. SQLite refuses a [BEGIN] inside a
    transaction. The connection belongs to the instance, so it is inside a
    transaction exactly when one was begun through [beginTransaction] and
    not yet committed, that is when [inTransaction] is set. *)
Definition run_begin : Async unit :=
  open <- read inTransaction ;;
  if open then
    throw "SQLITE_ERROR: cannot start a transaction within a transaction"
  else on_handle (fun t => (tt, t)).

(** When [BEGIN] is refused the assignment is not reached, and the flag
    stays as it was. *)
Definition beginTransaction : Async unit :=
  conn <- read db ;;
  if conn is None then throw "Database not initialized" else
  run_begin ;;
  assign (set_inTransaction true).

(** [if (this.autoCommit && !this.inTransaction)
      await this.commitTransaction()], the tail of [setWithExpiry] and of
    [delete]. *)
Definition auto_commit : Async unit :=
  ac <- read autoCommit ;;
  open <- read inTransaction ;;
  if ac && negb open then commitTransaction else resolve tt.

(** [DELETE FROM t WHERE key = ?], with [result.changes]. *)
Definition sql_delete (key : string) (conn : Table) : Z * Table :=
  ((if conn !! key is Some _ then 1 else 0), base.delete key conn).

Definition delete (key : string) : Async bool :=
  conn <- read db ;;
  if conn is None then throw "Database not initialized" else
  changes <- on_handle (sql_delete key) ;;
  auto_commit ;;
  resolve (0 <? changes).

(** [result.expiry && typeof result.expiry === "number" &&
    result.expiry < Date.now()]: [null] and [0] are falsy, and a stored
    expiry is a number. *)
Definition expiry_passed (e : option Z) (now : Z) : bool :=
  match e with
  | None => false
  | Some t => negb (t =? 0) && (t <? now)
  end.

(** [get(key)]; the statement is
    [SELECT value, expiry, one_time FROM t WHERE key = ?]. A [value] column
    that is NULL is falsy; a JSON text is never the empty string. *)
Definition get (key : string) (now : Z) : Async JsValue :=
  conn <- read db ;;
  if conn is None then resolve JNull else
  result <- on_handle (fun t => (t !! key, t)) ;;
  match result with
  | None => resolve JNull
  | Some result =>
      match value result with
      | None => resolve JNull
      | Some text =>
          if expiry_passed (expiry result) now then
            delete key ;;
            resolve JNull
          else
            (if one_time result =? 1 then delete key ;; resolve tt
             else resolve tt) ;;
            resolve (JSON_parse text)
      end
  end.

(** [get] in its two stretches, before and after the one [await] at which
    it waits for the row: [get_select] runs up to
    [await this.db.get(query, params)] and yields the row ([None] when the
    handle was [null] and [get] returned at once), [get_resume] is the rest
    of the method once the row has arrived. *)
Definition get_select (key : string) : Async (option (option Row)) :=
  conn <- read db ;;
  if conn is None then resolve None else
  result <- on_handle (fun t => (t !! key, t)) ;;
  resolve (Some result).

Definition get_resume (key : string) (now : Z)
    (selected : option (option Row)) : Async JsValue :=
  match selected with
  | None => resolve JNull
  | Some None => resolve JNull
  | Some (Some result) =>
      match value result with
      | None => resolve JNull
      | Some text =>
          if expiry_passed (expiry result) now then
            delete key ;;
            resolve JNull
          else
            (if one_time result =? 1 then delete key ;; resolve tt
             else resolve tt) ;;
            resolve (JSON_parse text)
      end
  end.

(** The value [setWithExpiry] writes, from what [get] returned for the
    key and the incoming value. *)
Definition newValue (existingValue value : JsValue) : JsValue :=
  if not_null existingValue then
    if String.eqb (typeof value) "string" then value
    else if Array_isArray existingValue && Array_isArray value then
      concat existingValue value
    else if String.eqb (typeof existingValue) "object"
            && String.eqb (typeof value) "object" then
      spread2 existingValue value
    else value
  else value.

(** [setWithExpiry]; the statement is [INSERT OR REPLACE INTO t (key,
    value, expiry, one_time) VALUES (?, ?, ?, ?)] with the parameters
    [[key, jsonValue, expiry, oneTime ? 1 : 0]]. *)
Definition setWithExpiry (key : string) (value : JsValue)
    (expiry : option Z) (oneTime : bool) (now : Z) : Async bool :=
  conn <- read db ;;
  if conn is None then throw "Database not initialized" else
  existingValue <- get key now ;;
  let jsonValue := JSON_stringify (newValue existingValue value) in
  on_handle (fun t =>
    (tt, <[key := mkRow (Some jsonValue) expiry (if oneTime then 1 else 0)]> t)) ;;
  auto_commit ;;
  resolve true.

Definition set (key : string) (value : JsValue) (oneTime : bool)
    (now : Z) : Async bool :=
  setWithExpiry key value None oneTime now.

Definition setex (key : string) (seconds : Z) (value : JsValue)
    (now : Z) : Async bool :=
  let expiry := now + seconds * 1000 in
  setWithExpiry key value (Some expiry) false now.

(** [exists(key)]: [SELECT 1 FROM t WHERE key = ?] returned a row. *)
Definition exists_ (key : string) : Async bool :=
  conn <- read db ;;
  if conn is None then throw "Database not initialized" else
  result <- on_handle (fun t => (t !! key, t)) ;;
  resolve (if result is Some _ then true else false).

(** [pattern.replace(/%/g, "\\%").replace(/_/g, "\\_")] *)
Definition escape_pattern (pattern : string) : string :=
  replace_all "_" "\_" (replace_all "%" "\%" pattern).

(** [keys(pattern)]: an absent pattern and the empty string are falsy and
    select every key. *)
Definition keys (pattern : option string) : Async (list string) :=
  conn <- read db ;;
  if conn is None then throw "Database not initialized" else
  let param :=
    match pattern with
    | None | Some EmptyString => None
    | Some p => Some (escape_pattern p)
    end in
  on_handle (fun t => (select_keys param t, t)).

(** [ttl(key)]: [null] for a missing row and for a falsy [expiry] (NULL
    or 0), [Math.max(expiry - Date.now(), 0)] otherwise. *)
Definition ttl (key : string) (now : Z) : Async (option Z) :=
  conn <- read db ;;
  if conn is None then resolve None else
  result <- on_handle (fun t => (t !! key, t)) ;;
  match result with
  | None => resolve None
  | Some result =>
      match expiry result with
      | None => resolve None
      | Some t =>
          if t =? 0 then resolve None
          else resolve (Some (Z.max (t - now) 0))
      end
  end.

(** [DELETE FROM t] *)
Definition clear : Async unit :=
  conn <- read db ;;
  if conn is None then throw "Database not initialized" else
  on_handle (fun _ => (tt, ∅)).

Definition close : Async unit :=
  conn <- read db ;;
  if conn is None then throw "Database not initialized" else
  assign (set_db None).

(** [for (let i = 0; i < iterations; i++) await operations()], for an
    integral [iterations]: the operations run one after the other, and the
    first rejection ends the loop. *)
Fixpoint loop (n : nat) (operations : Async unit) : Async unit :=
  match n with
  | O => resolve tt
  | S n' => operations ;; loop n' operations
  end.

Definition performLoopOperations (operations : Async unit) (iterations : Z)
    : Async unit :=
  conn <- read db ;;
  if conn is None then throw "Database not initialized" else
  loop (Z.to_nat iterations) operations.

End SQLiteDatabase.

(** ** src/kvstore.ts *)

Module SQLiteKV.

(** [await this.initPromise]: the promise of the [init()] the
    constructor started, taken to have resolved. *)
Definition ensureInitialized : Async unit := resolve tt.

Definition set (key : string) (value : JsValue) (oneTime : bool)
    (now : Z) : Async bool :=
  ensureInitialized ;;
  SQLiteDatabase.set key value oneTime now.

(** The call is [this.db.setex(key, seconds, value, oneTime)];
    [SQLiteDatabase.setex] has three parameters, and the fourth argument
    is not read. *)
Definition setex (key : string) (seconds : Z) (value : JsValue)
    (oneTime : bool) (now : Z) : Async bool :=
  ensureInitialized ;;
  SQLiteDatabase.setex key seconds value now.

Definition get (key : string) (now : Z) : Async JsValue :=
  ensureInitialized ;;
  SQLiteDatabase.get key now.

Definition delete (key : string) : Async bool :=
  ensureInitialized ;;
  SQLiteDatabase.delete key.

Definition exists_ (key : string) : Async bool :=
  ensureInitialized ;;
  SQLiteDatabase.exists_ key.

Definition keys (pattern : option string) : Async (list string) :=
  ensureInitialized ;;
  SQLiteDatabase.keys pattern.

Definition close : Async unit :=
  ensureInitialized ;;
  SQLiteDatabase.close.

Definition ttl (key : string) (now : Z) : Async (option Z) :=
  ensureInitialized ;;
  SQLiteDatabase.ttl key now.

(** [Promise.all(keys.map((key) => this.get(key)))] followed by the
    filter on [value !== null]. [keys.map] starts every [get] before any
    of them is resumed: each runs up to its [SELECT], and all the
    statements are sent before the first row comes back. The calls are
    then resumed in the order of [keys], each with the row it selected,
    and only then send their [DELETE]s. *)
Definition mget (keys : list string) (now : Z) : Async (list JsValue) :=
  ensureInitialized ;;
  rows <- mapM SQLiteDatabase.get_select keys ;;
  values <- mapM (fun '(key, row) => SQLiteDatabase.get_resume key now row)
              (zip keys rows) ;;
  resolve (List.filter not_null values).

(** [getAll()] is not an [async] method here; it throws at once. *)
Definition getAll : Async (gmap string JsValue) :=
  throw "Method not implemented.".

Definition clear : Async bool :=
  ensureInitialized ;;
  SQLiteDatabase.clear ;;
  resolve true.

(** [size()]: [(await this.keys()).length], with no pattern. *)
Definition size : Async nat :=
  ensureInitialized ;;
  keys <- keys None ;;
  resolve (length keys).

(** [value + amount] on doubles: IEEE addition at 53 bits of precision. *)
Definition Number_add (x y : spec_float) : spec_float := SFadd 53 1024 x y.

(** [increment(key, amount)]: the result is the new number, or [null]
    when the value read is not a number. *)
Definition increment (key : string) (amount : spec_float) (now : Z)
    : Async JsValue :=
  ensureInitialized ;;
  value <- get key now ;;
  match value with
  | JNumber n =>
      let newValue := Number_add n amount in
      set key (JNumber newValue) false now ;;
      resolve (JNumber newValue)
  | _ => resolve JNull
  end.

Definition beginTransaction : Async unit :=
  ensureInitialized ;;
  SQLiteDatabase.beginTransaction.

Definition commitTransaction : Async unit :=
  ensureInitialized ;;
  SQLiteDatabase.commitTransaction.

End SQLiteKV.

(** ** Notions used by the statements *)

Fixpoint JsValue_size (v : JsValue) : nat :=
  match v with
  | JArray l => S (list_sum (map JsValue_size l))
  | JObject m => S (map_fold (fun _ x acc => (JsValue_size x + acc)%nat) 0%nat m)
  | _ => 1%nat
  end.

(** The doubles that have a JSON number token of their own: the finite
    ones, negative zero apart (it is written ["0"]). *)
Definition exact_number (n : spec_float) : bool :=
  match n with
  | S754_finite _ _ _ | S754_zero false => true
  | S754_zero true | S754_infinity _ | S754_nan => false
  end.

(** [json_exact v]: every number inside [v] has a token of its own. *)
Fixpoint json_exact (v : JsValue) : bool :=
  match v with
  | JNull | JBoolean _ | JString _ => true
  | JNumber n => exact_number n
  | JArray l => forallb json_exact l
  | JObject m => map_fold (fun _ x acc => json_exact x && acc) true m
  end.

(** What [SQLiteDatabase.get key] returns on an open handle over the table
    [t] at time [now], and the table it leaves. *)
Definition read_value (t : Table) (key : string) (now : Z) : JsValue :=
  match t !! key with
  | Some (mkRow (Some text) e _) =>
      if SQLiteDatabase.expiry_passed e now then JNull else JSON_parse text
  | _ => JNull
  end.

Definition read_table (t : Table) (key : string) (now : Z) : Table :=
  match t !! key with
  | Some (mkRow (Some _) e ot) =>
      if SQLiteDatabase.expiry_passed e now || (ot =? 1) then base.delete key t
      else t
  | _ => t
  end.

(** An instance whose handle is open on the table [t], with the default
    [autoCommit] and no transaction begun. *)
Definition opened (t : Table) : Self := mkSelf (Some t) true false.

(** An instance whose handle is [null]: not yet initialised, or closed. *)
Definition unopened : Self := mkSelf None true false.


(** The value a promise resolved with; [null] for a rejected one. *)
Definition resolved_value (o : Outcome JsValue) : JsValue :=
  match o with
  | Resolved v _ => v
  | Rejected _ _ => JNull
  end.

(** The double of a positive integer, and its JSON token. *)
Definition num (m : positive) : JsValue := JNumber (S754_finite false m 0).
Definition tnum (m : positive) : JsonText := TNumber (S754_finite false m 0).

(** A row as [set] writes it: no expiry, no one-time flag. *)
Definition plain (text : JsonText) : Row := mkRow (Some text) None 0.

(** A pattern with a [%] or a [_], and a key with a backslash. *)
Fixpoint has_wildcard (pattern : string) : bool :=
  match pattern with
  | EmptyString => false
  | String c pattern' =>
      Ascii.eqb c "%" || Ascii.eqb c "_" || has_wildcard pattern'
  end.

Fixpoint has_backslash (key : string) : bool :=
  match key with
  | EmptyString => false
  | String c key' => Ascii.eqb c "\" || has_backslash key'
  end.

(** The row a method leaves under a key, on an open handle. *)
Definition row_after {A} (o : Outcome A) (key : string) : option Row :=
  match o with
  | Resolved _ this | Rejected _ this =>
      match db this with
      | Some t => t !! key
      | None => None
      end
  end.

(** A string with its ASCII capitals in lower case, as [LIKE] compares. *)
Fixpoint lower (s : string) : string :=
  match s with
  | EmptyString => EmptyString
  | String c s' => String (to_lower c) (lower s')
  end.

(** ** JavaScript values: induction and the JSON round trip *)

Lemma list_sum_elem_le (l : list nat) (n : nat) : n ∈ l -> (n <= list_sum l)%nat.
Proof.
  induction 1 as [x l|x y l _ IH]; simpl; lia.
Qed.

Lemma JsValue_size_element (l : list JsValue) (x : JsValue) :
  x ∈ l -> (JsValue_size x < JsValue_size (JArray l))%nat.
Proof.
  intros Hx. simpl.
  assert (JsValue_size x ∈ map JsValue_size l) as Hin
    by (apply list_elem_of_fmap; eauto).
  apply list_sum_elem_le in Hin. lia.
Qed.

Lemma JsValue_size_property (m : gmap string JsValue) (k : string) (x : JsValue) :
  m !! k = Some x -> (JsValue_size x < JsValue_size (JObject m))%nat.
Proof.
  intros Hk. simpl.
  rewrite (map_fold_delete_L _ _ k x m); [lia | intros; lia | exact Hk].
Qed.

(** Induction on a value, with the hypothesis for every element of an
    array and every property of an object. *)
Lemma JsValue_nested_ind (P : JsValue -> Prop) :
  P JNull ->
  (forall b, P (JBoolean b)) ->
  (forall n, P (JNumber n)) ->
  (forall s, P (JString s)) ->
  (forall l, Forall P l -> P (JArray l)) ->
  (forall m, map_Forall (fun _ => P) m -> P (JObject m)) ->
  forall v, P v.
Proof.
  intros Hnull Hbool Hnum Hstr Harr Hobj v.
  remember (JsValue_size v) as n eqn:Hn.
  revert v Hn. induction n as [n IH] using lt_wf_ind. intros v ->.
  destruct v as [|b|x|s|l|m]; auto.
  - apply Harr, Forall_forall. intros x Hx.
    apply (IH (JsValue_size x)); [by apply JsValue_size_element | done].
  - apply Hobj. intros k x Hk.
    apply (IH (JsValue_size x)); [by eapply JsValue_size_property | done].
Qed.

Lemma json_exact_object (m : gmap string JsValue) :
  json_exact (JObject m) = true <->
  map_Forall (fun _ x => json_exact x = true) m.
Proof.
  simpl.
  apply (map_fold_weak_ind
    (fun b m => b = true <-> map_Forall (fun _ x => json_exact x = true) m)).
  - split; [intros _; apply map_Forall_empty | done].
  - intros k x m' r Hk IH.
    rewrite andb_true_iff, map_Forall_insert by done. by rewrite IH.
Qed.

Lemma parse_stringify_number (n : spec_float) :
  exact_number n = true -> JSON_parse (stringify_number n) = JNumber n.
Proof.
  by destruct n as [[]| | |].
Qed.

(** Decoding the text of a value gives the value back when JSON has a
    token for each of its numbers. *)
Lemma JSON_parse_stringify (v : JsValue) :
  json_exact v = true -> JSON_parse (JSON_stringify v) = v.
Proof.
  induction v as [|b|n|s|l IH|m IH] using JsValue_nested_ind;
    intros Hv; try done.
  - by apply parse_stringify_number.
  - simpl. f_equal. simpl in Hv. rewrite forallb_forall in Hv.
    rewrite map_map. rewrite <- (map_id l) at 2.
    apply map_ext_in. intros x Hx.
    rewrite Forall_forall in IH.
    apply IH; [by apply list_elem_of_In | by apply Hv].
  - simpl. f_equal. apply json_exact_object in Hv.
    rewrite <- map_fmap_compose. rewrite <- (map_fmap_id m) at 2.
    apply map_fmap_ext. intros k x Hk. simpl.
    apply (IH k x Hk), (Hv k x Hk).
Qed.

(** A number without a token of its own is not read back. *)
Lemma JSON_parse_stringify_inexact (n : spec_float) :
  exact_number n = false -> JSON_parse (JSON_stringify (JNumber n)) <> JNumber n.
Proof.
  by destruct n as [[]| | |].
Qed.

(** ** What a read returns and leaves *)

Lemma read_value_absent (t : Table) (key : string) (now : Z) :
  t !! key = None -> read_value t key now = JNull.
Proof. unfold read_value. by intros ->. Qed.

Lemma read_table_absent (t : Table) (key : string) (now : Z) :
  t !! key = None -> read_table t key now = t.
Proof. unfold read_table. by intros ->. Qed.

Lemma read_table_other (t : Table) (key key' : string) (now : Z) :
  key <> key' -> read_table t key now !! key' = t !! key'.
Proof.
  intros Hne. unfold read_table.
  destruct (t !! key) as [[[text|] e ot]|]; try done.
  destruct (_ || _); [by rewrite lookup_delete_ne | done].
Qed.

Lemma read_value_other (t : Table) (key key' : string) (now now' : Z) :
  key <> key' ->
  read_value (read_table t key now) key' now' = read_value t key' now'.
Proof.
  intros Hne. unfold read_value. by rewrite read_table_other.
Qed.

Lemma read_value_insert (t : Table) (key : string) (text : JsonText)
    (e : option Z) (ot now : Z) :
  read_value (<[key := mkRow (Some text) e ot]> t) key now =
  if SQLiteDatabase.expiry_passed e now then JNull else JSON_parse text.
Proof. unfold read_value. by rewrite lookup_insert_eq. Qed.

Lemma read_table_insert (t : Table) (key : string) (text : JsonText)
    (e : option Z) (ot now : Z) :
  read_table (<[key := mkRow (Some text) e ot]> t) key now =
  if SQLiteDatabase.expiry_passed e now || (ot =? 1) then base.delete key t
  else <[key := mkRow (Some text) e ot]> t.
Proof.
  unfold read_table. rewrite lookup_insert_eq. cbv beta iota.
  destruct (_ || _); [apply delete_insert_eq | done].
Qed.

Lemma expiry_passed_true (e now : Z) :
  e <> 0 -> e < now -> SQLiteDatabase.expiry_passed (Some e) now = true.
Proof.
  intros He Hlt. simpl. apply andb_true_iff. split.
  - by apply negb_true_iff, Z.eqb_neq.
  - by apply Z.ltb_lt.
Qed.

(** ** The methods on an open handle *)

Lemma set_db_twice (this : Self) (c1 c2 : option Table) :
  set_db c2 (set_db c1 this) = set_db c2 this.
Proof. done. Qed.

(** With no transaction begun there is nothing to commit, and inside a
    transaction nothing is committed: the implicit commit leaves the
    instance as it is. *)
Lemma auto_commit_open (this : Self) (t : Table) :
  db this = Some t -> SQLiteDatabase.auto_commit this = Resolved tt this.
Proof.
  intros Hdb.
  unfold SQLiteDatabase.auto_commit, SQLiteDatabase.commitTransaction,
    bind, read, resolve.
  destruct (autoCommit this), (inTransaction this) eqn:Htx; simpl;
    rewrite ?Hdb, ?Htx; done.
Qed.

(** Takes a method past its guard on the handle. *)
Ltac past_guard Hdb :=
  unfold bind, read, on_handle; rewrite ?Hdb; simpl; rewrite ?Hdb.

Section OpenHandle.

Context (this : Self) (t : Table) (Hdb : db this = Some t).

Lemma set_db_same : set_db (Some t) this = this.
Proof using Hdb.
  destruct this as [d ac tx]. simpl in *. by subst d.
Qed.

Lemma delete_open (key : string) :
  SQLiteDatabase.delete key this =
  Resolved (bool_decide (is_Some (t !! key)))
           (set_db (Some (base.delete key t)) this).
Proof using Hdb.
  unfold SQLiteDatabase.delete. past_guard Hdb.
  rewrite (auto_commit_open _ (base.delete key t)) by done.
  unfold resolve. f_equal. by destruct (t !! key).
Qed.

Lemma get_open (key : string) (now : Z) :
  SQLiteDatabase.get key now this =
  Resolved (read_value t key now) (set_db (Some (read_table t key now)) this).
Proof using Hdb.
  unfold SQLiteDatabase.get, read_value, read_table. past_guard Hdb.
  rewrite set_db_same.
  destruct (t !! key) as [[[text|] e ot]|] eqn:Hk; simpl;
    unfold resolve; rewrite ?set_db_same; try done.
  destruct (SQLiteDatabase.expiry_passed e now); simpl.
  - by rewrite delete_open.
  - destruct (ot =? 1); simpl.
    + by rewrite delete_open.
    + by rewrite set_db_same.
Qed.

Lemma kv_get_open (key : string) (now : Z) :
  SQLiteKV.get key now this =
  Resolved (read_value t key now) (set_db (Some (read_table t key now)) this).
Proof using Hdb.
  unfold SQLiteKV.get, SQLiteKV.ensureInitialized.
  unfold bind at 1, resolve. apply get_open.
Qed.

Lemma setWithExpiry_open (key : string) (v : JsValue) (e : option Z)
    (oneTime : bool) (now : Z) :
  SQLiteDatabase.setWithExpiry key v e oneTime now this =
  Resolved true
    (set_db (Some (<[key :=
        mkRow (Some (JSON_stringify
                 (SQLiteDatabase.newValue (read_value t key now) v)))
              e (if oneTime then 1 else 0)]> (read_table t key now))) this).
Proof using Hdb.
  unfold SQLiteDatabase.setWithExpiry, bind at 1, read at 1.
  rewrite Hdb. unfold bind at 1. rewrite get_open.
  unfold bind at 1, on_handle. simpl.
  unfold bind. by erewrite auto_commit_open by done.
Qed.


End OpenHandle.

(** ** Reads started together *)

(** [get] is its two stretches one after the other. *)
Lemma get_split (key : string) (now : Z) (this : Self) :
  SQLiteDatabase.get key now this =
  (selected <- SQLiteDatabase.get_select key ;;
   SQLiteDatabase.get_resume key now selected) this.
Proof.
  unfold SQLiteDatabase.get, SQLiteDatabase.get_select,
    SQLiteDatabase.get_resume.
  unfold bind, read, on_handle, resolve.
  destruct (db this) as [t|] eqn:Hdb; simpl; rewrite ?Hdb; done.
Qed.

Lemma get_select_open (this : Self) (t : Table) (key : string) :
  db this = Some t ->
  SQLiteDatabase.get_select key this = Resolved (Some (t !! key)) this.
Proof.
  intros Hdb. unfold SQLiteDatabase.get_select. past_guard Hdb.
  by rewrite (set_db_same this t Hdb).
Qed.

Lemma mapM_get_select_open (keys : list string) (this : Self) (t : Table) :
  db this = Some t ->
  mapM SQLiteDatabase.get_select keys this =
  Resolved (map (fun key => Some (t !! key)) keys) this.
Proof.
  intros Hdb. induction keys as [|key keys IH]; [done|].
  simpl. unfold bind at 1. rewrite (get_select_open this t key Hdb).
  unfold bind at 1. by rewrite IH.
Qed.

(** A resumed [get] returns the value of the row it selected, whatever has
    happened to the table since, and sends its [DELETE] to the table as it
    is then. *)
Lemma get_resume_open (this : Self) (t' : Table) (key : string) (now : Z)
    (row : option Row) :
  db this = Some t' ->
  SQLiteDatabase.get_resume key now (Some row) this =
  Resolved
    match row with
    | Some (mkRow (Some text) e _) =>
        if SQLiteDatabase.expiry_passed e now then JNull else JSON_parse text
    | _ => JNull
    end
    (set_db
       (Some match row with
             | Some (mkRow (Some _) e ot) =>
                 if SQLiteDatabase.expiry_passed e now || (ot =? 1)
                 then base.delete key t' else t'
             | _ => t'
             end) this).
Proof.
  intros Hdb. unfold SQLiteDatabase.get_resume.
  destruct row as [[[text|] e ot]|]; simpl;
    unfold resolve; rewrite ?(set_db_same this t' Hdb); try done.
  destruct (SQLiteDatabase.expiry_passed e now); simpl.
  - unfold bind. by rewrite (delete_open this t' Hdb).
  - destruct (ot =? 1); simpl; unfold bind.
    + by rewrite (delete_open this t' Hdb).
    + by rewrite (set_db_same this t' Hdb).
Qed.

Lemma mapM_get_resume_open (t : Table) (now : Z) (keys : list string) :
  forall (this : Self) (t' : Table),
  db this = Some t' ->
  exists t'',
    mapM (fun '(key, row) => SQLiteDatabase.get_resume key now row)
      (zip keys (map (fun key => Some (t !! key)) keys)) this
    = Resolved (map (fun key => read_value t key now) keys)
        (set_db (Some t'') this).
Proof.
  induction keys as [|key keys IH]; intros this t' Hdb.
  - exists t'. simpl. unfold resolve. by rewrite (set_db_same this t' Hdb).
  - cbn [zip zip_with map mapM].
    pose proof (get_resume_open this t' key now (t !! key) Hdb) as Hfirst.
    match type of Hfirst with
    | _ = Resolved _ (set_db (Some ?t1) _) =>
        destruct (IH (set_db (Some t1) this) t1 eq_refl) as [t'' Hrest]
    end.
    exists t''. unfold bind at 1. rewrite Hfirst.
    unfold bind at 1. rewrite Hrest. unfold resolve.
    by rewrite set_db_twice.
Qed.

(** ** Merge on write *)

Lemma newValue_object_over_array (l : list JsValue) (m : gmap string JsValue) :
  SQLiteDatabase.newValue (JArray l) (JObject m) = JObject (m ∪ index_props l).
Proof. reflexivity. Qed.

Lemma newValue_array_over_object (m : gmap string JsValue) (l : list JsValue) :
  SQLiteDatabase.newValue (JObject m) (JArray l) = JObject (index_props l ∪ m).
Proof. reflexivity. Qed.

Lemma newValue_absent (v : JsValue) : SQLiteDatabase.newValue JNull v = v.
Proof. reflexivity. Qed.

Lemma newValue_string (existing : JsValue) (s : string) :
  SQLiteDatabase.newValue existing (JString s) = JString s.
Proof. by destruct existing. Qed.

Lemma newValue_arrays (l l' : list JsValue) :
  SQLiteDatabase.newValue (JArray l) (JArray l') = JArray (l ++ l').
Proof. reflexivity. Qed.

Lemma newValue_objects (m m' : gmap string JsValue) :
  SQLiteDatabase.newValue (JObject m) (JObject m') = JObject (m' ∪ m).
Proof. reflexivity. Qed.

(** The incoming value replaces the stored one as soon as one of the two
    is a boolean, a number or a string. *)
Lemma newValue_replaces (existing v : JsValue) :
  typeof existing <> "object" \/ typeof v <> "object" ->
  SQLiteDatabase.newValue existing v = v.
Proof.
  intros H. destruct existing, v; try reflexivity; by destruct H.
Qed.

(** C1 (the code at the failing input). [set("k", [1, 2])] on an empty
    store, then [set("k", {a: 3})]: the existing value is an array and the
    incoming one an object, and the incoming value is not what is stored.
    The array passes the [typeof ... === "object"] test and is spread into
    the new object, and [get("k")] returns [{"0": 1, "1": 2, a: 3}]. *)
Theorem set_object_over_array_spreads :
  SQLiteDatabase.set "k" (JArray [num 1; num 2]) false 0 (opened ∅)
  = Resolved true (opened {[ "k" := plain (TArray [tnum 1; tnum 2]) ]}) /\
  SQLiteDatabase.set "k" (JObject {[ "a" := num 3 ]}) false 0
    (opened {[ "k" := plain (TArray [tnum 1; tnum 2]) ]})
  = Resolved true
      (opened {[ "k" := plain (TObject
                 {[ "0" := tnum 1; "1" := tnum 2; "a" := tnum 3 ]}) ]}) /\
  SQLiteDatabase.get "k" 0
    (opened {[ "k" := plain (TObject
               {[ "0" := tnum 1; "1" := tnum 2; "a" := tnum 3 ]}) ]})
  = Resolved (JObject {[ "0" := num 1; "1" := num 2; "a" := num 3 ]})
      (opened {[ "k" := plain (TObject
                 {[ "0" := tnum 1; "1" := tnum 2; "a" := tnum 3 ]}) ]}) /\
  JObject {[ "0" := num 1; "1" := num 2; "a" := num 3 ]}
  <> JObject {[ "a" := num 3 ]}.
Proof.
  split; [|split; [|split]].
  - vm_compute. reflexivity.
  - vm_compute. reflexivity.
  - vm_compute. reflexivity.
  - intros H. apply (f_equal (fun o => own_props o !! "0")) in H.
    vm_compute in H. discriminate H.
Qed.

(** ** The one-time flag of [setex] *)

Lemma setex_oneTime_not_read (key : string) (seconds : Z) (v : JsValue)
    (oneTime : bool) (now : Z) (this : Self) :
  SQLiteKV.setex key seconds v oneTime now this =
  SQLiteDatabase.setWithExpiry key v (Some (now + seconds * 1000)) false now this.
Proof. reflexivity. Qed.

(** C2 (the code at the failing input). At time 1000,
    [setex("k", 60, "v", true)] on an empty store writes the expiry 61000
    but not the one-time flag; before the expiry, the first [get("k")]
    returns ["v"] and the second one returns ["v"] again. *)
Theorem setex_one_time_read_twice :
  SQLiteKV.setex "k" 60 (JString "v") true 1000 (opened ∅)
  = Resolved true (opened {[ "k" := mkRow (Some (TString "v")) (Some 61000) 0 ]}) /\
  SQLiteKV.get "k" 2000
    (opened {[ "k" := mkRow (Some (TString "v")) (Some 61000) 0 ]})
  = Resolved (JString "v")
      (opened {[ "k" := mkRow (Some (TString "v")) (Some 61000) 0 ]}) /\
  SQLiteKV.get "k" 3000
    (opened {[ "k" := mkRow (Some (TString "v")) (Some 61000) 0 ]})
  = Resolved (JString "v")
      (opened {[ "k" := mkRow (Some (TString "v")) (Some 61000) 0 ]}).
Proof.
  split; [|split]; vm_compute; reflexivity.
Qed.

(** ** Reading several keys *)

(** C3 (amended). On an open handle, for every list of keys, [mget]
    returns, in the order of the input keys, the values that [get] returns
    for them on the store as [mget] found it and that are not [null]. A
    key for which [get] returns [null], an absent key for one, has no
    position in the result. *)
Theorem mget_filters_absent (this : Self) (t : Table) (keys : list string)
    (now : Z) :
  db this = Some t ->
  (exists this',
      SQLiteKV.mget keys now this =
      Resolved
        (List.filter not_null
           (map (fun key => resolved_value (SQLiteKV.get key now this)) keys))
        this') /\
  (forall key, t !! key = None ->
      resolved_value (SQLiteKV.get key now this) = JNull).
Proof.
  intros Hdb. split.
  - destruct (mapM_get_resume_open t now keys this t Hdb) as [t' Hall].
    exists (set_db (Some t') this).
    unfold SQLiteKV.mget, SQLiteKV.ensureInitialized.
    unfold bind at 1, resolve at 1. unfold bind at 1.
    rewrite (mapM_get_select_open keys this t Hdb).
    unfold bind at 1. rewrite Hall.
    unfold resolve. do 2 f_equal.
    apply map_ext. intros key. by rewrite (kv_get_open this t Hdb).
  - intros key Hkey. rewrite (kv_get_open this t Hdb). simpl.
    by apply read_value_absent.
Qed.

Lemma mget_filters_absent_witness :
  db (opened {[ "k2" := plain (TString "v2") ]})
  = Some {[ "k2" := plain (TString "v2") ]} /\
  (exists this',
      SQLiteKV.mget ["k1"; "k2"; "k2"] 0
        (opened {[ "k2" := plain (TString "v2") ]})
      = Resolved
          (List.filter not_null
             (map (fun key =>
                     resolved_value
                       (SQLiteKV.get key 0
                          (opened {[ "k2" := plain (TString "v2") ]})))
                ["k1"; "k2"; "k2"]))
          this') /\
  (forall key, ({[ "k2" := plain (TString "v2") ]} : Table) !! key = None ->
      resolved_value
        (SQLiteKV.get key 0 (opened {[ "k2" := plain (TString "v2") ]}))
      = JNull).
Proof.
  split; [reflexivity|].
  apply (mget_filters_absent
           (opened {[ "k2" := plain (TString "v2") ]})
           {[ "k2" := plain (TString "v2") ]}
           ["k1"; "k2"; "k2"] 0).
  reflexivity.
Defined.

(** C3 (counterexample). ["k1"] is stored and ["k2"] is absent:
    [mget("k1", "k2")] has one element for the two keys. With the absent
    key in front, [mget("k0", "k1")], the value of the second key is the
    first element. *)
Lemma mget_absent_key_has_no_position :
  SQLiteKV.mget ["k1"; "k2"] 0 (opened {[ "k1" := plain (TString "v1") ]})
  = Resolved [JString "v1"] (opened {[ "k1" := plain (TString "v1") ]}) /\
  length [JString "v1"] <> length ["k1"; "k2"] /\
  SQLiteKV.mget ["k0"; "k1"] 0 (opened {[ "k1" := plain (TString "v1") ]})
  = Resolved [JString "v1"] (opened {[ "k1" := plain (TString "v1") ]}).
Proof.
  split; [vm_compute; reflexivity | split; [discriminate | vm_compute; reflexivity]].
Qed.

(** ** Expiry *)

(** C4 (amended). On an open handle, an entry whose stored expiry is not 0
    and lies strictly before the current time is deleted by [get], which
    returns [null]; this holds whatever the one-time flag of the entry is,
    so the value of an expired one-time entry is not returned. *)
Theorem get_expired_deletes (this : Self) (t : Table) (key : string)
    (text : JsonText) (e ot now : Z) :
  db this = Some t ->
  t !! key = Some (mkRow (Some text) (Some e) ot) ->
  e <> 0 ->
  e < now ->
  SQLiteDatabase.get key now this =
  Resolved JNull (set_db (Some (base.delete key t)) this).
Proof.
  intros Hdb Hk He Hlt.
  rewrite (get_open this t Hdb).
  unfold read_value, read_table. rewrite Hk. cbv beta iota.
  by rewrite (expiry_passed_true e now He Hlt).
Qed.

Lemma get_expired_deletes_witness :
  db (opened {[ "k" := mkRow (Some (TString "v")) (Some 1000) 1 ]})
  = Some {[ "k" := mkRow (Some (TString "v")) (Some 1000) 1 ]} /\
  ({[ "k" := mkRow (Some (TString "v")) (Some 1000) 1 ]} : Table) !! "k"
  = Some (mkRow (Some (TString "v")) (Some 1000) 1) /\
  1000 <> 0 /\
  1000 < 2000 /\
  SQLiteDatabase.get "k" 2000
    (opened {[ "k" := mkRow (Some (TString "v")) (Some 1000) 1 ]})
  = Resolved JNull
      (set_db (Some (base.delete "k"
                 {[ "k" := mkRow (Some (TString "v")) (Some 1000) 1 ]}))
         (opened {[ "k" := mkRow (Some (TString "v")) (Some 1000) 1 ]})).
Proof.
  split; [reflexivity|]. split; [reflexivity|].
  split; [lia|]. split; [lia|].
  apply (get_expired_deletes
           (opened {[ "k" := mkRow (Some (TString "v")) (Some 1000) 1 ]})
           {[ "k" := mkRow (Some (TString "v")) (Some 1000) 1 ]}
           "k" (TString "v") 1000 1 2000);
    [reflexivity | reflexivity | lia | lia].
Defined.

(** C4 (counterexample). At time 5000, [setex("k", -5, "v")] stores the
    expiry 0. At time 6000 that expiry is present and in the past, and
    [get("k")] returns ["v"] and keeps the entry. *)
Lemma get_expiry_zero_returns_value :
  SQLiteDatabase.setex "k" (-5) (JString "v") 5000 (opened ∅)
  = Resolved true (opened {[ "k" := mkRow (Some (TString "v")) (Some 0) 0 ]}) /\
  0 < 6000 /\
  SQLiteDatabase.get "k" 6000
    (opened {[ "k" := mkRow (Some (TString "v")) (Some 0) 0 ]})
  = Resolved (JString "v")
      (opened {[ "k" := mkRow (Some (TString "v")) (Some 0) 0 ]}).
Proof.
  split; [|split]; vm_compute; reflexivity.
Qed.

(** ** One-time reads *)




(** ** Reading on a closed handle *)

(** The wrapper adds nothing to the three core operations once its
    initialisation has settled. *)
Lemma SQLiteKV_forwards (this : Self) (key : string) (v : JsValue)
    (oneTime : bool) (now : Z) :
  SQLiteKV.set key v oneTime now this = SQLiteDatabase.set key v oneTime now this /\
  SQLiteKV.delete key this = SQLiteDatabase.delete key this /\
  SQLiteKV.get key now this = SQLiteDatabase.get key now this.
Proof. by repeat split. Qed.

Lemma close_unsets_handle (this : Self) (t : Table) :
  db this = Some t -> SQLiteDatabase.close this = Resolved tt (set_db None this).
Proof.
  intros Hdb. unfold SQLiteDatabase.close. by past_guard Hdb.
Qed.

(** C6 (amended). While the handle is [null], [set] and [delete] reject
    with the error "Database not initialized"; [get] does not: it resolves
    with [null], as for an absent key. None of them changes the instance. *)
Theorem closed_handle_outcomes (this : Self) (key : string) (v : JsValue)
    (oneTime : bool) (now : Z) :
  db this = None ->
  SQLiteDatabase.set key v oneTime now this =
    Rejected "Database not initialized" this /\
  SQLiteDatabase.delete key this = Rejected "Database not initialized" this /\
  SQLiteDatabase.get key now this = Resolved JNull this.
Proof.
  intros Hdb. repeat split.
  - unfold SQLiteDatabase.set, SQLiteDatabase.setWithExpiry. by past_guard Hdb.
  - unfold SQLiteDatabase.delete. by past_guard Hdb.
  - unfold SQLiteDatabase.get. by past_guard Hdb.
Qed.

Lemma closed_handle_outcomes_witness :
  db unopened = None /\
  SQLiteDatabase.set "k" (JString "v") false 0 unopened
  = Rejected "Database not initialized" unopened /\
  SQLiteDatabase.delete "k" unopened
  = Rejected "Database not initialized" unopened /\
  SQLiteDatabase.get "k" 0 unopened = Resolved JNull unopened.
Proof.
  split; [reflexivity|].
  apply (closed_handle_outcomes unopened "k" (JString "v") false 0).
  reflexivity.
Defined.

(** C6 (counterexample). A store holding ["k"] is closed; [get("k")]
    then resolves with [null] instead of failing. *)
Lemma get_after_close_resolves_null :
  (SQLiteDatabase.close ;; SQLiteDatabase.get "k" 0)
    (opened {[ "k" := plain (TString "v") ]})
  = Resolved JNull unopened.
Proof. reflexivity. Qed.

(** ** Key patterns *)

Lemma escape_pattern_cons (c : Ascii.ascii) (pattern : string) :
  SQLiteDatabase.escape_pattern (String c pattern) =
  if Ascii.eqb c "%" then String "\" (String "%" (SQLiteDatabase.escape_pattern pattern))
  else if Ascii.eqb c "_" then String "\" (String "_" (SQLiteDatabase.escape_pattern pattern))
  else String c (SQLiteDatabase.escape_pattern pattern).
Proof.
  unfold SQLiteDatabase.escape_pattern. simpl.
  destruct (Ascii.eqb c "%") eqn:Hpercent; simpl.
  - reflexivity.
  - by destruct (Ascii.eqb c "_").
Qed.

Lemma to_lower_backslash (d : Ascii.ascii) :
  Ascii.eqb (to_lower "\") (to_lower d) = true -> Ascii.eqb d "\" = true.
Proof.
  destruct d as [[] [] [] [] [] [] [] []]; vm_compute; congruence.
Qed.

(** A pattern with a wildcard reaches SQLite with a backslash before it,
    and only keys that have a backslash themselves match it. *)
Lemma like_escaped_wildcard (pattern : string) :
  forall key : string,
  has_wildcard pattern = true ->
  like (SQLiteDatabase.escape_pattern pattern) key = true ->
  has_backslash key = true.
Proof.
  induction pattern as [|c pattern IH]; intros key Hwild Hlike; [done|].
  rewrite escape_pattern_cons in Hlike. simpl in Hwild.
  destruct (Ascii.eqb c "%") eqn:Hpercent;
    [|destruct (Ascii.eqb c "_") eqn:Hunder].
  - destruct key as [|d key]; [done|]. simpl in Hlike.
    apply andb_true_iff in Hlike as [Hd _].
    simpl. by rewrite (to_lower_backslash d Hd).
  - destruct key as [|d key]; [done|]. simpl in Hlike.
    apply andb_true_iff in Hlike as [Hd _].
    simpl. by rewrite (to_lower_backslash d Hd).
  - simpl in Hwild. simpl in Hlike. rewrite Hpercent, Hunder in Hlike.
    destruct key as [|d key]; [done|].
    apply andb_true_iff in Hlike as [_ Hrest].
    simpl. rewrite (IH key Hwild Hrest). apply orb_true_r.
Qed.

Lemma keys_wildcard_needs_backslash (this : Self) (t : Table)
    (pattern key : string) :
  db this = Some t ->
  has_wildcard pattern = true ->
  exists result,
    SQLiteDatabase.keys (Some pattern) this = Resolved result this /\
    (key ∈ result -> has_backslash key = true).
Proof.
  intros Hdb Hwild.
  exists (select_keys (Some (SQLiteDatabase.escape_pattern pattern)) t). split.
  - unfold SQLiteDatabase.keys. past_guard Hdb.
    rewrite (set_db_same this t Hdb).
    by destruct pattern.
  - unfold select_keys. intros Hin.
    apply list_elem_of_In, filter_In in Hin as [_ Hlike].
    by apply (like_escaped_wildcard pattern).
Qed.

(** C7 (the code at the failing input). The store holds the keys ["abc"]
    and ["a\bc"]. For the pattern ["a%"] the statement receives ["a\%"],
    in which the backslash stands for itself: [keys("a%")] returns
    ["a\bc"] alone, and misses ["abc"], which matches ["a%"]. *)
Theorem keys_prefix_pattern_misses :
  SQLiteDatabase.escape_pattern "a%" = "a\%" /\
  SQLiteDatabase.keys (Some "a%")
    (opened {[ "abc" := plain (tnum 1); "a\bc" := plain (tnum 2) ]})
  = Resolved ["a\bc"]
      (opened {[ "abc" := plain (tnum 1); "a\bc" := plain (tnum 2) ]}) /\
  like "a%" "abc" = true.
Proof.
  split; [|split]; vm_compute; reflexivity.
Qed.

(** ** Round trip *)

(** C8 (amended). On an open handle where [key] is absent, [get(key)]
    right after [set(key, v)] returns [v] for every value [v] whose numbers
    are all finite and none of them negative zero. Objects are compared as
    maps, arrays as sequences. *)
Theorem set_get_round_trip (this : Self) (t : Table) (key : string)
    (v : JsValue) (oneTime : bool) (now0 now1 : Z) :
  db this = Some t ->
  t !! key = None ->
  json_exact v = true ->
  exists this1 this2,
    SQLiteDatabase.set key v oneTime now0 this = Resolved true this1 /\
    SQLiteDatabase.get key now1 this1 = Resolved v this2.
Proof.
  intros Hdb Hk Hv.
  eexists _, _. split.
  - unfold SQLiteDatabase.set. apply (setWithExpiry_open this t Hdb).
  - rewrite read_value_absent, read_table_absent by done.
    erewrite get_open by done.
    unfold read_value. rewrite lookup_insert_eq. simpl.
    f_equal. by apply JSON_parse_stringify.
Qed.

Lemma set_get_round_trip_witness :
  db (opened ∅) = Some ∅ /\
  (∅ : Table) !! "k" = None /\
  json_exact (JArray [num 1; JObject {[ "a" := JString "x" ]}; JBoolean false])
  = true /\
  exists this1 this2,
    SQLiteDatabase.set "k"
      (JArray [num 1; JObject {[ "a" := JString "x" ]}; JBoolean false])
      false 0 (opened ∅)
    = Resolved true this1 /\
    SQLiteDatabase.get "k" 0 this1
    = Resolved
        (JArray [num 1; JObject {[ "a" := JString "x" ]}; JBoolean false])
        this2.
Proof.
  split; [reflexivity|]. split; [reflexivity|]. split; [vm_compute; reflexivity|].
  apply (set_get_round_trip (opened ∅) ∅ "k"
           (JArray [num 1; JObject {[ "a" := JString "x" ]}; JBoolean false])
           false 0 0);
    [reflexivity | reflexivity | vm_compute; reflexivity].
Defined.

(** C8 (counterexample). [NaN] is a number; on an empty store,
    [set("k", NaN)] writes the text [null], and [get("k")] returns
    [null]. *)
Lemma set_get_NaN_returns_null :
  typeof (JNumber S754_nan) = "number" /\
  SQLiteDatabase.set "k" (JNumber S754_nan) false 0 (opened ∅)
  = Resolved true (opened {[ "k" := plain TNull ]}) /\
  SQLiteDatabase.get "k" 0 (opened {[ "k" := plain TNull ]})
  = Resolved JNull (opened {[ "k" := plain TNull ]}) /\
  JNull <> JNumber S754_nan.
Proof.
  split; [|split; [|split]]; [vm_compute; reflexivity .. | discriminate].
Qed.

(** ** The metadata of a write *)

(** C9. On an open handle, [set] and [setex] write the entry's expiry and
    one-time flag from the call alone, whatever entry the key held before:
    [set(key, v, oneTime)] leaves no expiry and the flag of the call,
    [setex(key, seconds, v)] leaves the expiry [now + seconds * 1000] and
    no one-time flag. *)
Theorem write_replaces_metadata (this : Self) (t : Table) (key : string)
    (v : JsValue) (oneTime : bool) (seconds now : Z) :
  db this = Some t ->
  (exists this' t' text,
      SQLiteDatabase.set key v oneTime now this = Resolved true this' /\
      db this' = Some t' /\
      t' !! key = Some (mkRow (Some text) None (if oneTime then 1 else 0))) /\
  (exists this' t' text,
      SQLiteDatabase.setex key seconds v now this = Resolved true this' /\
      db this' = Some t' /\
      t' !! key = Some (mkRow (Some text) (Some (now + seconds * 1000)) 0)).
Proof.
  intros Hdb. split.
  - eexists _, _, _. split; [|split].
    + unfold SQLiteDatabase.set. apply (setWithExpiry_open this t Hdb).
    + done.
    + apply lookup_insert_eq.
  - eexists _, _, _. split; [|split].
    + unfold SQLiteDatabase.setex. apply (setWithExpiry_open this t Hdb).
    + done.
    + apply lookup_insert_eq.
Qed.

Lemma write_replaces_metadata_witness :
  db (opened {[ "k" := mkRow (Some (TString "old")) (Some 9000) 1 ]})
  = Some {[ "k" := mkRow (Some (TString "old")) (Some 9000) 1 ]} /\
  (exists this' t' text,
      SQLiteDatabase.set "k" (JString "new") false 1000
        (opened {[ "k" := mkRow (Some (TString "old")) (Some 9000) 1 ]})
      = Resolved true this' /\
      db this' = Some t' /\
      t' !! "k" = Some (mkRow (Some text) None (if false then 1 else 0))) /\
  (exists this' t' text,
      SQLiteDatabase.setex "k" 60 (JString "new") 1000
        (opened {[ "k" := mkRow (Some (TString "old")) (Some 9000) 1 ]})
      = Resolved true this' /\
      db this' = Some t' /\
      t' !! "k" = Some (mkRow (Some text) (Some (1000 + 60 * 1000)) 0)).
Proof.
  split; [reflexivity|].
  apply (write_replaces_metadata
           (opened {[ "k" := mkRow (Some (TString "old")) (Some 9000) 1 ]})
           {[ "k" := mkRow (Some (TString "old")) (Some 9000) 1 ]}
           "k" (JString "new") false 60 1000).
  reflexivity.
Defined.

(** ** An expiry of 0 *)

(** C10. On an open handle, an entry whose stored expiry is exactly 0 is
    read like an entry without expiry: at every time [get] returns its
    decoded value, and removes it only under the one-time rule; [ttl]
    returns [null] for it. *)
Theorem expiry_zero_is_no_expiry (this : Self) (t : Table) (key : string)
    (text : JsonText) (ot now : Z) :
  db this = Some t ->
  t !! key = Some (mkRow (Some text) (Some 0) ot) ->
  SQLiteDatabase.get key now this =
    Resolved (JSON_parse text)
      (if ot =? 1 then set_db (Some (base.delete key t)) this else this) /\
  SQLiteDatabase.ttl key now this = Resolved None this.
Proof.
  intros Hdb Hk. split.
  - rewrite (get_open this t Hdb).
    unfold read_value, read_table. rewrite Hk. simpl.
    destruct (ot =? 1); [done | by rewrite (set_db_same this t Hdb)].
  - unfold SQLiteDatabase.ttl. past_guard Hdb. rewrite Hk. simpl.
    by rewrite (set_db_same this t Hdb).
Qed.

Lemma expiry_zero_is_no_expiry_witness :
  db (opened {[ "k" := mkRow (Some (TString "v")) (Some 0) 0 ]})
  = Some {[ "k" := mkRow (Some (TString "v")) (Some 0) 0 ]} /\
  ({[ "k" := mkRow (Some (TString "v")) (Some 0) 0 ]} : Table) !! "k"
  = Some (mkRow (Some (TString "v")) (Some 0) 0) /\
  SQLiteDatabase.get "k" 6000
    (opened {[ "k" := mkRow (Some (TString "v")) (Some 0) 0 ]})
  = Resolved (JSON_parse (TString "v"))
      (if 0 =? 1
       then set_db (Some (base.delete "k"
                      {[ "k" := mkRow (Some (TString "v")) (Some 0) 0 ]}))
              (opened {[ "k" := mkRow (Some (TString "v")) (Some 0) 0 ]})
       else opened {[ "k" := mkRow (Some (TString "v")) (Some 0) 0 ]}) /\
  SQLiteDatabase.ttl "k" 6000
    (opened {[ "k" := mkRow (Some (TString "v")) (Some 0) 0 ]})
  = Resolved None (opened {[ "k" := mkRow (Some (TString "v")) (Some 0) 0 ]}).
Proof.
  split; [reflexivity|]. split; [reflexivity|].
  apply (expiry_zero_is_no_expiry
           (opened {[ "k" := mkRow (Some (TString "v")) (Some 0) 0 ]})
           {[ "k" := mkRow (Some (TString "v")) (Some 0) 0 ]}
           "k" (TString "v") 0 6000); reflexivity.
Defined.

(** * Further properties of the store *)

(** ** The other methods on an open handle *)

Section OpenHandleMore.

Context (this : Self) (t : Table) (Hdb : db this = Some t).

Lemma exists_open (key : string) :
  SQLiteDatabase.exists_ key this =
  Resolved (if t !! key is Some _ then true else false) this.
Proof using Hdb.
  unfold SQLiteDatabase.exists_. past_guard Hdb.
  by rewrite (set_db_same this t Hdb).
Qed.

Lemma keys_open (pattern : option string) :
  SQLiteDatabase.keys pattern this =
  Resolved
    (select_keys
       match pattern with
       | None | Some EmptyString => None
       | Some p => Some (SQLiteDatabase.escape_pattern p)
       end t)
    this.
Proof using Hdb.
  unfold SQLiteDatabase.keys. past_guard Hdb.
  by rewrite (set_db_same this t Hdb).
Qed.

Lemma size_open : SQLiteKV.size this = Resolved (size t) this.
Proof using Hdb.
  unfold SQLiteKV.size, SQLiteKV.keys, SQLiteKV.ensureInitialized.
  unfold bind, resolve. rewrite (keys_open None). simpl.
  by rewrite length_fmap, length_map_to_list.
Qed.

Lemma clear_open :
  SQLiteKV.clear this = Resolved true (set_db (Some ∅) this).
Proof using Hdb.
  unfold SQLiteKV.clear, SQLiteKV.ensureInitialized, SQLiteDatabase.clear.
  by past_guard Hdb.
Qed.

End OpenHandleMore.

(** ** Values that JSON represents exactly are closed under the merge *)

Lemma json_exact_array (l : list JsValue) :
  json_exact (JArray l) = true <-> Forall (fun x => json_exact x = true) l.
Proof.
  simpl. rewrite forallb_forall, Forall_forall.
  split; intros H x Hx; apply H; by apply list_elem_of_In.
Qed.

Lemma index_props_element (l : list JsValue) (k : string) (x : JsValue) :
  index_props l !! k = Some x -> x ∈ l.
Proof.
  intros Hk. apply elem_of_list_to_map_2 in Hk.
  apply elem_of_lookup_imap in Hk as (i & y & Heq & Hy).
  injection Heq as _ ->. by eapply list_elem_of_lookup_2.
Qed.

Lemma json_exact_own_props (v : JsValue) :
  json_exact v = true ->
  map_Forall (fun _ x => json_exact x = true) (own_props v).
Proof.
  intros Hv. destruct v as [|b|n|s|l|m]; simpl;
    try apply map_Forall_empty.
  - apply json_exact_array in Hv. rewrite Forall_forall in Hv.
    intros k x Hk. by apply Hv, (index_props_element l k).
  - by apply json_exact_object.
Qed.

Lemma json_exact_newValue (existing v : JsValue) :
  json_exact existing = true -> json_exact v = true ->
  json_exact (SQLiteDatabase.newValue existing v) = true.
Proof.
  intros He Hv. unfold SQLiteDatabase.newValue.
  destruct (not_null existing); [|done].
  destruct (String.eqb (typeof v) "string"); [done|].
  destruct (Array_isArray existing && Array_isArray v) eqn:Harr.
  - destruct existing, v; try done. unfold concat.
    apply json_exact_array, Forall_app.
    split; by apply json_exact_array.
  - destruct (String.eqb (typeof existing) "object"
              && String.eqb (typeof v) "object"); [|done].
    apply json_exact_object, map_Forall_union_2; by apply json_exact_own_props.
Qed.

(** ** Writes and reads in sequence *)

Lemma two_writes_then_read (this : Self) (t : Table) (key : string)
    (v1 v2 : JsValue) (ot1 ot2 : bool) (now0 now1 now2 : Z) :
  db this = Some t ->
  t !! key = None ->
  json_exact v1 = true ->
  json_exact v2 = true ->
  exists this1 this2 this3,
    SQLiteDatabase.set key v1 ot1 now0 this = Resolved true this1 /\
    SQLiteDatabase.set key v2 ot2 now1 this1 = Resolved true this2 /\
    SQLiteDatabase.get key now2 this2 =
      Resolved (SQLiteDatabase.newValue v1 v2) this3.
Proof.
  intros Hdb Hk Hv1 Hv2.
  eexists _, _, _. split; [|split].
  - unfold SQLiteDatabase.set. apply (setWithExpiry_open this t Hdb).
  - unfold SQLiteDatabase.set. by erewrite setWithExpiry_open.
  - erewrite get_open by done. rewrite !read_value_insert. simpl.
    rewrite read_value_absent by done. simpl.
    rewrite newValue_absent, (JSON_parse_stringify v1 Hv1).
    by rewrite JSON_parse_stringify by by apply json_exact_newValue.
Qed.

(** The merge of [setWithExpiry], case by case. *)
Lemma newValue_cases (v1 v2 : JsValue) :
  SQLiteDatabase.newValue v1 v2 =
  match v1, v2 with
  | JArray l1, JArray l2 => JArray (l1 ++ l2)
  | JObject m1, JObject m2 => JObject (m2 ∪ m1)
  | JArray l1, JObject m2 => JObject (m2 ∪ index_props l1)
  | JObject m1, JArray l2 => JObject (index_props l2 ∪ m1)
  | JArray l1, JNull => JObject (index_props l1)
  | JObject m1, JNull => JObject m1
  | _, _ => v2
  end.
Proof.
  destruct v1, v2; try reflexivity;
    unfold SQLiteDatabase.newValue, spread2; simpl;
    by rewrite (left_id_L ∅ (∪)).
Qed.

(** X1. Two writes to a key that was absent, of values in which every
    number is finite and none is negative zero, compose by the merge of
    [setWithExpiry], whatever the one-time flags of the two writes. The
    read that follows returns: the concatenation for two arrays; the union
    of the properties for two objects, those of the second winning; for an
    array and an object, in either order, the object of the properties of
    both, the elements of the array under their decimal indices and the
    second value winning; for [null] written over an array or an object,
    the object of the properties of the first; and the second value in
    every other case. *)
Theorem writes_compose (this : Self) (t : Table) (key : string)
    (v1 v2 : JsValue) (ot1 ot2 : bool) (now0 now1 now2 : Z) :
  db this = Some t ->
  t !! key = None ->
  json_exact v1 = true ->
  json_exact v2 = true ->
  exists this1 this2 this3,
    SQLiteDatabase.set key v1 ot1 now0 this = Resolved true this1 /\
    SQLiteDatabase.set key v2 ot2 now1 this1 = Resolved true this2 /\
    SQLiteDatabase.get key now2 this2 =
      Resolved
        match v1, v2 with
        | JArray l1, JArray l2 => JArray (l1 ++ l2)
        | JObject m1, JObject m2 => JObject (m2 ∪ m1)
        | JArray l1, JObject m2 => JObject (m2 ∪ index_props l1)
        | JObject m1, JArray l2 => JObject (index_props l2 ∪ m1)
        | JArray l1, JNull => JObject (index_props l1)
        | JObject m1, JNull => JObject m1
        | _, _ => v2
        end
        this3.
Proof.
  intros Hdb Hk Hv1 Hv2. rewrite <- newValue_cases.
  by apply (two_writes_then_read this t).
Qed.

Lemma writes_compose_witness :
  db (opened ∅) = Some ∅ /\
  (∅ : Table) !! "k" = None /\
  json_exact (JArray [num 1; num 2]) = true /\
  json_exact (JObject {[ "a" := num 3 ]}) = true /\
  exists this1 this2 this3,
    SQLiteDatabase.set "k" (JArray [num 1; num 2]) false 0 (opened ∅)
    = Resolved true this1 /\
    SQLiteDatabase.set "k" (JObject {[ "a" := num 3 ]}) false 1 this1
    = Resolved true this2 /\
    SQLiteDatabase.get "k" 2 this2
    = Resolved (JObject ({[ "a" := num 3 ]} ∪ index_props [num 1; num 2]))
        this3.
Proof.
  split; [reflexivity|]. split; [reflexivity|].
  split; [reflexivity|]. split; [reflexivity|].
  apply (writes_compose (opened ∅) ∅ "k" (JArray [num 1; num 2])
           (JObject {[ "a" := num 3 ]}) false false 0 1 2); reflexivity.
Defined.

(** X2. A write over an expired entry does not merge with it: the expired
    value is dropped, the incoming value is stored as it is, and, when
    every number in it is finite and none is negative zero, the next read
    returns it. *)
Theorem write_over_expired_replaces (this : Self) (t : Table) (key : string)
    (text : JsonText) (e ot : Z) (v : JsValue) (oneTime : bool)
    (now0 now1 : Z) :
  db this = Some t ->
  t !! key = Some (mkRow (Some text) (Some e) ot) ->
  e <> 0 ->
  e < now0 ->
  json_exact v = true ->
  exists this1 this2,
    SQLiteDatabase.set key v oneTime now0 this = Resolved true this1 /\
    row_after (SQLiteDatabase.set key v oneTime now0 this) key
    = Some (mkRow (Some (JSON_stringify v)) None (if oneTime then 1 else 0)) /\
    SQLiteDatabase.get key now1 this1 = Resolved v this2.
Proof.
  intros Hdb Hk He Hlt Hv.
  assert (read_value t key now0 = JNull) as Hold.
  { unfold read_value. rewrite Hk. cbv beta iota.
    by rewrite (expiry_passed_true e now0 He Hlt). }
  eexists _, _. split; [|split].
  - unfold SQLiteDatabase.set. apply (setWithExpiry_open this t Hdb).
  - unfold SQLiteDatabase.set. rewrite (setWithExpiry_open this t Hdb).
    simpl. by rewrite lookup_insert_eq, Hold.
  - erewrite get_open by done. rewrite read_value_insert, Hold. simpl.
    by rewrite newValue_absent, (JSON_parse_stringify v Hv).
Qed.

Lemma write_over_expired_replaces_witness :
  db (opened {[ "k" := mkRow (Some (TArray [tnum 1])) (Some 1000) 0 ]})
  = Some {[ "k" := mkRow (Some (TArray [tnum 1])) (Some 1000) 0 ]} /\
  ({[ "k" := mkRow (Some (TArray [tnum 1])) (Some 1000) 0 ]} : Table) !! "k"
  = Some (mkRow (Some (TArray [tnum 1])) (Some 1000) 0) /\
  1000 <> 0 /\
  1000 < 2000 /\
  json_exact (JArray [num 2]) = true /\
  exists this1 this2,
    SQLiteDatabase.set "k" (JArray [num 2]) false 2000
      (opened {[ "k" := mkRow (Some (TArray [tnum 1])) (Some 1000) 0 ]})
    = Resolved true this1 /\
    row_after
      (SQLiteDatabase.set "k" (JArray [num 2]) false 2000
         (opened {[ "k" := mkRow (Some (TArray [tnum 1])) (Some 1000) 0 ]}))
      "k"
    = Some (mkRow (Some (JSON_stringify (JArray [num 2]))) None
              (if false then 1 else 0)) /\
    SQLiteDatabase.get "k" 3000 this1 = Resolved (JArray [num 2]) this2.
Proof.
  split; [reflexivity|]. split; [reflexivity|].
  split; [lia|]. split; [lia|]. split; [reflexivity|].
  apply (write_over_expired_replaces
           (opened {[ "k" := mkRow (Some (TArray [tnum 1])) (Some 1000) 0 ]})
           {[ "k" := mkRow (Some (TArray [tnum 1])) (Some 1000) 0 ]}
           "k" (TArray [tnum 1]) 1000 0 (JArray [num 2]) false 2000 3000);
    [reflexivity | reflexivity | lia | lia | reflexivity].
Defined.

(** X3. After [setex] on an absent key of a value in which every number
    is finite and none is negative zero, the value is read back, unchanged
    and as often as wanted, at every time up to and including the expiry
    instant [now + seconds * 1000]; strictly after it (for an expiry other
    than 0) [get] returns [null] and the entry is gone. *)
Theorem setex_readable_until_expiry (this : Self) (t : Table) (key : string)
    (v : JsValue) (seconds now0 : Z) :
  db this = Some t ->
  t !! key = None ->
  json_exact v = true ->
  exists this1,
    SQLiteDatabase.setex key seconds v now0 this = Resolved true this1 /\
    (forall now1, now1 <= now0 + seconds * 1000 ->
       SQLiteDatabase.get key now1 this1 = Resolved v this1) /\
    (forall now1, now0 + seconds * 1000 <> 0 -> now0 + seconds * 1000 < now1 ->
       SQLiteDatabase.get key now1 this1 = Resolved JNull this /\
       SQLiteDatabase.exists_ key this = Resolved false this).
Proof.
  intros Hdb Hk Hv.
  eexists. split; [|split].
  - unfold SQLiteDatabase.setex. apply (setWithExpiry_open this t Hdb).
  - intros now1 Hle.
    rewrite read_value_absent, read_table_absent by done.
    erewrite get_open by done.
    rewrite read_value_insert, read_table_insert, set_db_twice.
    assert (SQLiteDatabase.expiry_passed (Some (now0 + seconds * 1000)) now1
            = false) as ->.
    { simpl. apply andb_false_iff. right. by apply Z.ltb_ge. }
    simpl. by rewrite newValue_absent, (JSON_parse_stringify v Hv).
  - intros now1 Hne Hlt. split.
    + rewrite read_value_absent, read_table_absent by done.
      erewrite get_open by done.
      rewrite read_value_insert, read_table_insert, set_db_twice.
      rewrite (expiry_passed_true _ now1 Hne Hlt). simpl.
      by rewrite delete_id, (set_db_same this t Hdb) by done.
    + rewrite (exists_open this t Hdb). by rewrite Hk.
Qed.

Lemma setex_readable_until_expiry_witness :
  db (opened ∅) = Some ∅ /\
  (∅ : Table) !! "k" = None /\
  json_exact (JString "v") = true /\
  exists this1,
    SQLiteDatabase.setex "k" 60 (JString "v") 1000 (opened ∅)
    = Resolved true this1 /\
    (forall now1, now1 <= 1000 + 60 * 1000 ->
       SQLiteDatabase.get "k" now1 this1 = Resolved (JString "v") this1) /\
    (forall now1, 1000 + 60 * 1000 <> 0 -> 1000 + 60 * 1000 < now1 ->
       SQLiteDatabase.get "k" now1 this1 = Resolved JNull (opened ∅) /\
       SQLiteDatabase.exists_ "k" (opened ∅) = Resolved false (opened ∅)).
Proof.
  split; [reflexivity|]. split; [reflexivity|]. split; [reflexivity|].
  apply (setex_readable_until_expiry (opened ∅) ∅ "k" (JString "v") 60 1000);
    reflexivity.
Defined.

(** X4. A read of an entry that is neither expired nor one-time changes
    nothing: [get] returns the decoded value and leaves the instance as it
    was, so the same read can be repeated. *)
Theorem get_plain_entry_read_only (this : Self) (t : Table) (key : string)
    (text : JsonText) (e : option Z) (ot now : Z) :
  db this = Some t ->
  t !! key = Some (mkRow (Some text) e ot) ->
  SQLiteDatabase.expiry_passed e now = false ->
  ot <> 1 ->
  SQLiteDatabase.get key now this = Resolved (JSON_parse text) this.
Proof.
  intros Hdb Hk He Hot.
  rewrite (get_open this t Hdb). unfold read_value, read_table.
  rewrite Hk. cbv beta iota. rewrite He.
  apply Z.eqb_neq in Hot. rewrite Hot. simpl.
  by rewrite (set_db_same this t Hdb).
Qed.

Lemma get_plain_entry_read_only_witness :
  db (opened {[ "k" := mkRow (Some (TString "v")) (Some 5000) 0 ]})
  = Some {[ "k" := mkRow (Some (TString "v")) (Some 5000) 0 ]} /\
  ({[ "k" := mkRow (Some (TString "v")) (Some 5000) 0 ]} : Table) !! "k"
  = Some (mkRow (Some (TString "v")) (Some 5000) 0) /\
  SQLiteDatabase.expiry_passed (Some 5000) 4000 = false /\
  0 <> 1 /\
  SQLiteDatabase.get "k" 4000
    (opened {[ "k" := mkRow (Some (TString "v")) (Some 5000) 0 ]})
  = Resolved (JSON_parse (TString "v"))
      (opened {[ "k" := mkRow (Some (TString "v")) (Some 5000) 0 ]}).
Proof.
  split; [reflexivity|]. split; [reflexivity|]. split; [reflexivity|].
  split; [lia|].
  apply (get_plain_entry_read_only
           (opened {[ "k" := mkRow (Some (TString "v")) (Some 5000) 0 ]})
           {[ "k" := mkRow (Some (TString "v")) (Some 5000) 0 ]}
           "k" (TString "v") (Some 5000) 0 4000);
    [reflexivity | reflexivity | reflexivity | lia].
Defined.

(** ** Time to live *)

(** X5. For an entry with an expiry other than 0, [ttl] returns the time
    left, [expiry - now], and 0 once the expiry has passed; it is a probe:
    the entry stays in the table even when it is expired. *)
Theorem ttl_time_left (this : Self) (t : Table) (key : string)
    (text : option JsonText) (e ot now : Z) :
  db this = Some t ->
  t !! key = Some (mkRow text (Some e) ot) ->
  e <> 0 ->
  SQLiteDatabase.ttl key now this
  = Resolved (Some (if e <? now then 0 else e - now)) this.
Proof.
  intros Hdb Hk He.
  unfold SQLiteDatabase.ttl. past_guard Hdb. rewrite Hk. simpl.
  apply Z.eqb_neq in He. rewrite He. unfold resolve.
  rewrite (set_db_same this t Hdb). do 2 f_equal.
  destruct (Z.ltb_spec e now); lia.
Qed.

Lemma ttl_time_left_witness :
  db (opened {[ "k" := mkRow (Some (TString "v")) (Some 5000) 0 ]})
  = Some {[ "k" := mkRow (Some (TString "v")) (Some 5000) 0 ]} /\
  ({[ "k" := mkRow (Some (TString "v")) (Some 5000) 0 ]} : Table) !! "k"
  = Some (mkRow (Some (TString "v")) (Some 5000) 0) /\
  5000 <> 0 /\
  SQLiteDatabase.ttl "k" 7000
    (opened {[ "k" := mkRow (Some (TString "v")) (Some 5000) 0 ]})
  = Resolved (Some (if 5000 <? 7000 then 0 else 5000 - 7000))
      (opened {[ "k" := mkRow (Some (TString "v")) (Some 5000) 0 ]}).
Proof.
  split; [reflexivity|]. split; [reflexivity|]. split; [lia|].
  apply (ttl_time_left
           (opened {[ "k" := mkRow (Some (TString "v")) (Some 5000) 0 ]})
           {[ "k" := mkRow (Some (TString "v")) (Some 5000) 0 ]}
           "k" (Some (TString "v")) 5000 0 7000);
    [reflexivity | reflexivity | lia].
Defined.

(** X6. [ttl] returns [null] for a key that is not in the table and for
    an entry written by [set], which has no expiry. *)
Theorem ttl_null_without_expiry (this : Self) (t : Table) (key : string)
    (v : JsValue) (oneTime : bool) (now0 now1 : Z) :
  db this = Some t ->
  (t !! key = None -> SQLiteDatabase.ttl key now1 this = Resolved None this) /\
  exists this1,
    SQLiteDatabase.set key v oneTime now0 this = Resolved true this1 /\
    SQLiteDatabase.ttl key now1 this1 = Resolved None this1.
Proof.
  intros Hdb. split.
  - intros Hk. unfold SQLiteDatabase.ttl. past_guard Hdb. rewrite Hk. simpl.
    by rewrite (set_db_same this t Hdb).
  - eexists. split.
    + unfold SQLiteDatabase.set. apply (setWithExpiry_open this t Hdb).
    + unfold SQLiteDatabase.ttl. unfold bind, read, on_handle. simpl.
      by rewrite lookup_insert_eq.
Qed.

Lemma ttl_null_without_expiry_witness :
  db (opened ∅) = Some ∅ /\
  ((∅ : Table) !! "k" = None ->
     SQLiteDatabase.ttl "k" 10 (opened ∅) = Resolved None (opened ∅)) /\
  exists this1,
    SQLiteDatabase.set "k" (JString "v") false 0 (opened ∅)
    = Resolved true this1 /\
    SQLiteDatabase.ttl "k" 10 this1 = Resolved None this1.
Proof.
  split; [reflexivity|].
  apply (ttl_null_without_expiry (opened ∅) ∅ "k" (JString "v") false 0 10).
  reflexivity.
Defined.

(** X7. After [setex(key, seconds, v)] at time [now0], whatever the key
    held before, [ttl] at time [now1] returns
    [now0 + seconds * 1000 - now1], or 0 when that is negative (the expiry
    being other than 0). *)
Theorem ttl_after_setex (this : Self) (t : Table) (key : string)
    (v : JsValue) (seconds now0 now1 : Z) :
  db this = Some t ->
  now0 + seconds * 1000 <> 0 ->
  exists this1,
    SQLiteDatabase.setex key seconds v now0 this = Resolved true this1 /\
    SQLiteDatabase.ttl key now1 this1
    = Resolved (Some (Z.max (now0 + seconds * 1000 - now1) 0)) this1.
Proof.
  intros Hdb He. eexists. split.
  - unfold SQLiteDatabase.setex. apply (setWithExpiry_open this t Hdb).
  - unfold SQLiteDatabase.ttl. unfold bind, read, on_handle. simpl.
    rewrite lookup_insert_eq. simpl.
    apply Z.eqb_neq in He. by rewrite He.
Qed.

Lemma ttl_after_setex_witness :
  db (opened {[ "k" := plain (TString "old") ]})
  = Some {[ "k" := plain (TString "old") ]} /\
  1000 + 60 * 1000 <> 0 /\
  exists this1,
    SQLiteDatabase.setex "k" 60 (JString "v") 1000
      (opened {[ "k" := plain (TString "old") ]})
    = Resolved true this1 /\
    SQLiteDatabase.ttl "k" 1000 this1
    = Resolved (Some (Z.max (1000 + 60 * 1000 - 1000) 0)) this1.
Proof.
  split; [reflexivity|]. split; [lia|].
  apply (ttl_after_setex (opened {[ "k" := plain (TString "old") ]})
           {[ "k" := plain (TString "old") ]} "k" (JString "v") 60 1000 1000);
    [reflexivity | lia].
Defined.

(** ** Presence, deletion and the other keys *)

(** X8. [exists] does not look at the expiry: for an expired entry it
    returns [true] as long as no [get] has removed the entry, although
    [get] returns [null] for it; after that [get], [exists] returns
    [false]. *)
Theorem exists_ignores_expiry (this : Self) (t : Table) (key : string)
    (text : JsonText) (e ot now : Z) :
  db this = Some t ->
  t !! key = Some (mkRow (Some text) (Some e) ot) ->
  e <> 0 ->
  e < now ->
  SQLiteDatabase.exists_ key this = Resolved true this /\
  exists this1,
    SQLiteDatabase.get key now this = Resolved JNull this1 /\
    SQLiteDatabase.exists_ key this1 = Resolved false this1.
Proof.
  intros Hdb Hk He Hlt. split.
  - rewrite (exists_open this t Hdb). by rewrite Hk.
  - exists (set_db (Some (base.delete key t)) this). split.
    + rewrite (get_open this t Hdb). unfold read_value, read_table.
      rewrite Hk. cbv beta iota.
      by rewrite (expiry_passed_true e now He Hlt).
    + erewrite exists_open by done. by rewrite lookup_delete_eq.
Qed.

Lemma exists_ignores_expiry_witness :
  db (opened {[ "k" := mkRow (Some (TString "v")) (Some 1000) 0 ]})
  = Some {[ "k" := mkRow (Some (TString "v")) (Some 1000) 0 ]} /\
  ({[ "k" := mkRow (Some (TString "v")) (Some 1000) 0 ]} : Table) !! "k"
  = Some (mkRow (Some (TString "v")) (Some 1000) 0) /\
  1000 <> 0 /\
  1000 < 2000 /\
  SQLiteDatabase.exists_ "k"
    (opened {[ "k" := mkRow (Some (TString "v")) (Some 1000) 0 ]})
  = Resolved true
      (opened {[ "k" := mkRow (Some (TString "v")) (Some 1000) 0 ]}) /\
  exists this1,
    SQLiteDatabase.get "k" 2000
      (opened {[ "k" := mkRow (Some (TString "v")) (Some 1000) 0 ]})
    = Resolved JNull this1 /\
    SQLiteDatabase.exists_ "k" this1 = Resolved false this1.
Proof.
  split; [reflexivity|]. split; [reflexivity|].
  split; [lia|]. split; [lia|].
  apply (exists_ignores_expiry
           (opened {[ "k" := mkRow (Some (TString "v")) (Some 1000) 0 ]})
           {[ "k" := mkRow (Some (TString "v")) (Some 1000) 0 ]}
           "k" (TString "v") 1000 0 2000);
    [reflexivity | reflexivity | lia | lia].
Defined.

(** X9. [delete] returns whether the key had a row (an expired one
    counts). Afterwards the key is absent: [get] returns [null], [exists]
    returns [false], and a second [delete] returns [false]. *)
Theorem delete_removes (this : Self) (t : Table) (key : string) (now : Z) :
  db this = Some t ->
  exists this1,
    SQLiteDatabase.delete key this
    = Resolved (if t !! key is Some _ then true else false) this1 /\
    SQLiteDatabase.get key now this1 = Resolved JNull this1 /\
    SQLiteDatabase.exists_ key this1 = Resolved false this1 /\
    SQLiteDatabase.delete key this1 = Resolved false this1.
Proof.
  intros Hdb.
  exists (set_db (Some (base.delete key t)) this).
  assert (db (set_db (Some (base.delete key t)) this)
          = Some (base.delete key t)) as Hdb' by done.
  split; [|split; [|split]].
  - rewrite (delete_open this t Hdb). by destruct (t !! key).
  - rewrite (get_open _ _ Hdb').
    rewrite read_value_absent, read_table_absent by apply lookup_delete_eq.
    by rewrite set_db_twice.
  - rewrite (exists_open _ _ Hdb'). by rewrite lookup_delete_eq.
  - rewrite (delete_open _ _ Hdb'). rewrite lookup_delete_eq, set_db_twice.
    by rewrite delete_id by apply lookup_delete_eq.
Qed.

Lemma delete_removes_witness :
  db (opened {[ "k" := plain (TString "v") ]})
  = Some {[ "k" := plain (TString "v") ]} /\
  exists this1,
    SQLiteDatabase.delete "k" (opened {[ "k" := plain (TString "v") ]})
    = Resolved
        (if ({[ "k" := plain (TString "v") ]} : Table) !! "k" is Some _
         then true else false) this1 /\
    SQLiteDatabase.get "k" 0 this1 = Resolved JNull this1 /\
    SQLiteDatabase.exists_ "k" this1 = Resolved false this1 /\
    SQLiteDatabase.delete "k" this1 = Resolved false this1.
Proof.
  split; [reflexivity|].
  apply (delete_removes (opened {[ "k" := plain (TString "v") ]})
           {[ "k" := plain (TString "v") ]} "k" 0).
  reflexivity.
Defined.

(** X10. A write, a read or a deletion on one key leaves the row of every
    other key as it was. *)
Theorem other_keys_untouched (this : Self) (t : Table) (key key' : string)
    (v : JsValue) (e : option Z) (oneTime : bool) (now : Z) :
  db this = Some t ->
  key <> key' ->
  row_after (SQLiteDatabase.setWithExpiry key v e oneTime now this) key'
  = t !! key' /\
  row_after (SQLiteDatabase.get key now this) key' = t !! key' /\
  row_after (SQLiteDatabase.delete key this) key' = t !! key'.
Proof.
  intros Hdb Hne. split; [|split].
  - rewrite (setWithExpiry_open this t Hdb). simpl.
    by rewrite lookup_insert_ne, read_table_other.
  - rewrite (get_open this t Hdb). simpl. by apply read_table_other.
  - rewrite (delete_open this t Hdb). simpl. by apply lookup_delete_ne.
Qed.

Lemma other_keys_untouched_witness :
  db (opened {[ "a" := plain (tnum 1); "b" := plain (tnum 2) ]})
  = Some {[ "a" := plain (tnum 1); "b" := plain (tnum 2) ]} /\
  "a" <> "b" /\
  row_after
    (SQLiteDatabase.setWithExpiry "a" (JString "v") (Some 10) true 0
       (opened {[ "a" := plain (tnum 1); "b" := plain (tnum 2) ]})) "b"
  = ({[ "a" := plain (tnum 1); "b" := plain (tnum 2) ]} : Table) !! "b" /\
  row_after
    (SQLiteDatabase.get "a" 0
       (opened {[ "a" := plain (tnum 1); "b" := plain (tnum 2) ]})) "b"
  = ({[ "a" := plain (tnum 1); "b" := plain (tnum 2) ]} : Table) !! "b" /\
  row_after
    (SQLiteDatabase.delete "a"
       (opened {[ "a" := plain (tnum 1); "b" := plain (tnum 2) ]})) "b"
  = ({[ "a" := plain (tnum 1); "b" := plain (tnum 2) ]} : Table) !! "b".
Proof.
  split; [reflexivity|]. split; [discriminate|].
  apply (other_keys_untouched
           (opened {[ "a" := plain (tnum 1); "b" := plain (tnum 2) ]})
           {[ "a" := plain (tnum 1); "b" := plain (tnum 2) ]}
           "a" "b" (JString "v") (Some 10) true 0);
    [reflexivity | discriminate].
Defined.

(** ** The implicit commit and transactions *)

(** X11. The [autoCommit] setting and an open transaction change nothing
    to what a write or a deletion stores, and neither method changes the
    two flags: the implicit commit only runs when no transaction was begun,
    and then [commitTransaction] has nothing to commit. *)
Theorem implicit_commit_is_inert (t : Table) (key : string) (v : JsValue)
    (e : option Z) (oneTime : bool) (now : Z) (ac tx : bool) :
  exists t1 t2,
    SQLiteDatabase.setWithExpiry key v e oneTime now (mkSelf (Some t) ac tx)
    = Resolved true (mkSelf (Some t1) ac tx) /\
    SQLiteDatabase.setWithExpiry key v e oneTime now (opened t)
    = Resolved true (opened t1) /\
    SQLiteDatabase.delete key (mkSelf (Some t) ac tx)
    = Resolved (if t !! key is Some _ then true else false)
        (mkSelf (Some t2) ac tx) /\
    SQLiteDatabase.delete key (opened t)
    = Resolved (if t !! key is Some _ then true else false) (opened t2).
Proof.
  eexists _, _. split; [|split; [|split]].
  - by rewrite (setWithExpiry_open (mkSelf (Some t) ac tx) t eq_refl).
  - by rewrite (setWithExpiry_open (opened t) t eq_refl).
  - rewrite (delete_open (mkSelf (Some t) ac tx) t eq_refl).
    by destruct (t !! key).
  - rewrite (delete_open (opened t) t eq_refl). by destruct (t !! key).
Qed.

Lemma beginTransaction_idle (this : Self) (t : Table) :
  db this = Some t ->
  inTransaction this = false ->
  SQLiteDatabase.beginTransaction this
  = Resolved tt (set_inTransaction true this).
Proof.
  intros Hdb Htx.
  unfold SQLiteDatabase.beginTransaction, SQLiteDatabase.run_begin.
  past_guard Hdb. rewrite Htx. simpl. rewrite Hdb.
  by rewrite (set_db_same this t Hdb).
Qed.

(** X12. With no transaction begun, [commitTransaction] changes nothing.
    A write between [beginTransaction] and [commitTransaction] stores what
    the write alone stores, and the instance is out of the transaction
    again afterwards. *)
Theorem transaction_bracket (this : Self) (t : Table) (key : string)
    (v : JsValue) (e : option Z) (oneTime : bool) (now : Z) :
  db this = Some t ->
  inTransaction this = false ->
  SQLiteDatabase.commitTransaction this = Resolved tt this /\
  (exists this1,
      SQLiteDatabase.beginTransaction this = Resolved tt this1 /\
      inTransaction this1 = true /\
      db this1 = Some t) /\
  (SQLiteDatabase.beginTransaction ;;
   stored <- SQLiteDatabase.setWithExpiry key v e oneTime now ;;
   SQLiteDatabase.commitTransaction ;;
   resolve stored) this
  = SQLiteDatabase.setWithExpiry key v e oneTime now this.
Proof.
  intros Hdb Htx. split; [|split].
  - unfold SQLiteDatabase.commitTransaction. past_guard Hdb. by rewrite Htx.
  - eexists. split; [|split].
    + by apply (beginTransaction_idle this t).
    + done.
    + destruct this as [d ac tx]. simpl in *. by subst.
  - rewrite (setWithExpiry_open this t Hdb).
    unfold bind at 1. rewrite (beginTransaction_idle this t Hdb Htx).
    unfold bind at 1.
    erewrite setWithExpiry_open by by rewrite <- Hdb.
    unfold SQLiteDatabase.commitTransaction. unfold bind, read, on_handle.
    simpl. unfold resolve. f_equal.
    destruct this as [d ac tx]. simpl in *. by subst.
Qed.

Lemma transaction_bracket_witness :
  db (opened ∅) = Some ∅ /\
  inTransaction (opened ∅) = false /\
  SQLiteDatabase.commitTransaction (opened ∅) = Resolved tt (opened ∅) /\
  (exists this1,
      SQLiteDatabase.beginTransaction (opened ∅) = Resolved tt this1 /\
      inTransaction this1 = true /\
      db this1 = Some ∅) /\
  (SQLiteDatabase.beginTransaction ;;
   stored <- SQLiteDatabase.setWithExpiry "k" (JString "v") None false 0 ;;
   SQLiteDatabase.commitTransaction ;;
   resolve stored) (opened ∅)
  = SQLiteDatabase.setWithExpiry "k" (JString "v") None false 0 (opened ∅).
Proof.
  split; [reflexivity|]. split; [reflexivity|].
  apply (transaction_bracket (opened ∅) ∅ "k" (JString "v") None false 0);
    reflexivity.
Defined.

(** ** Opening and closing *)

(** X13. On an open handle [init] changes nothing (the file is not read
    again). [close] releases the handle: a second [close] rejects with
    "Database not initialized", and [init] after [close] opens the file
    afresh. *)
Theorem close_and_init (this : Self) (t file : Table) :
  db this = Some t ->
  SQLiteDatabase.init file this = Resolved tt this /\
  (SQLiteDatabase.close ;; SQLiteDatabase.close) this
  = Rejected "Database not initialized" (set_db None this) /\
  (SQLiteDatabase.close ;; SQLiteDatabase.init file) this
  = Resolved tt (set_db (Some file) this).
Proof.
  intros Hdb. split; [|split].
  - unfold SQLiteDatabase.init. by past_guard Hdb.
  - unfold bind at 1. by rewrite (close_unsets_handle this t Hdb).
  - unfold bind at 1. by rewrite (close_unsets_handle this t Hdb).
Qed.

Lemma close_and_init_witness :
  db (opened {[ "k" := plain (TString "v") ]})
  = Some {[ "k" := plain (TString "v") ]} /\
  SQLiteDatabase.init ∅ (opened {[ "k" := plain (TString "v") ]})
  = Resolved tt (opened {[ "k" := plain (TString "v") ]}) /\
  (SQLiteDatabase.close ;; SQLiteDatabase.close)
    (opened {[ "k" := plain (TString "v") ]})
  = Rejected "Database not initialized"
      (set_db None (opened {[ "k" := plain (TString "v") ]})) /\
  (SQLiteDatabase.close ;; SQLiteDatabase.init ∅)
    (opened {[ "k" := plain (TString "v") ]})
  = Resolved tt (set_db (Some ∅) (opened {[ "k" := plain (TString "v") ]})).
Proof.
  split; [reflexivity|].
  apply (close_and_init (opened {[ "k" := plain (TString "v") ]})
           {[ "k" := plain (TString "v") ]} ∅).
  reflexivity.
Defined.

(** ** Listing and counting keys *)

(** X14. Without a pattern, and with the empty pattern, [keys] lists the
    keys of the table: each key that has a row exactly once, expired
    entries included, and nothing else. *)
Theorem keys_lists_every_row (this : Self) (t : Table) :
  db this = Some t ->
  exists result,
    SQLiteDatabase.keys None this = Resolved result this /\
    SQLiteDatabase.keys (Some EmptyString) this = Resolved result this /\
    NoDup result /\
    (forall key, key ∈ result <-> is_Some (t !! key)).
Proof.
  intros Hdb. exists ((map_to_list t).*1).
  split; [|split; [|split]].
  - by rewrite (keys_open this t Hdb).
  - by rewrite (keys_open this t Hdb).
  - apply NoDup_fst_map_to_list.
  - intros key. rewrite list_elem_of_fmap. split.
    + intros ([k row] & -> & Hin). apply elem_of_map_to_list in Hin. by eexists.
    + intros [row Hrow]. exists (key, row). split; [done|].
      by apply elem_of_map_to_list.
Qed.

Lemma keys_lists_every_row_witness :
  db (opened {[ "a" := plain (tnum 1); "b" := plain (tnum 2) ]})
  = Some {[ "a" := plain (tnum 1); "b" := plain (tnum 2) ]} /\
  exists result,
    SQLiteDatabase.keys None
      (opened {[ "a" := plain (tnum 1); "b" := plain (tnum 2) ]})
    = Resolved result
        (opened {[ "a" := plain (tnum 1); "b" := plain (tnum 2) ]}) /\
    SQLiteDatabase.keys (Some EmptyString)
      (opened {[ "a" := plain (tnum 1); "b" := plain (tnum 2) ]})
    = Resolved result
        (opened {[ "a" := plain (tnum 1); "b" := plain (tnum 2) ]}) /\
    NoDup result /\
    (forall key,
       key ∈ result <->
       is_Some (({[ "a" := plain (tnum 1); "b" := plain (tnum 2) ]} : Table)
                  !! key)).
Proof.
  split; [reflexivity|].
  apply (keys_lists_every_row
           (opened {[ "a" := plain (tnum 1); "b" := plain (tnum 2) ]})
           {[ "a" := plain (tnum 1); "b" := plain (tnum 2) ]}).
  reflexivity.
Defined.

Lemma escape_pattern_literal (pattern : string) :
  has_wildcard pattern = false ->
  SQLiteDatabase.escape_pattern pattern = pattern.
Proof.
  induction pattern as [|c pattern IH]; [done|].
  simpl. intros Hw.
  apply orb_false_iff in Hw as [Hc Hw]. apply orb_false_iff in Hc as [Hp Hu].
  rewrite escape_pattern_cons, Hp, Hu. by rewrite IH.
Qed.

Lemma like_literal (pattern : string) :
  forall key : string,
  has_wildcard pattern = false ->
  like pattern key = true <-> lower pattern = lower key.
Proof.
  induction pattern as [|c pattern IH]; intros key Hw.
  - destruct key; simpl; split; congruence.
  - simpl in Hw.
    apply orb_false_iff in Hw as [Hc Hw]. apply orb_false_iff in Hc as [Hp Hu].
    simpl. rewrite Hp, Hu.
    destruct key as [|d key]; simpl; [split; congruence|].
    rewrite andb_true_iff, (IH key Hw), Ascii.eqb_eq.
    split; [intros [-> ->]; done | intros [= -> ->]; done].
Qed.

(** X15. For a pattern without [%] and [_], [keys] returns the keys of the
    table that equal the pattern up to the case of ASCII letters. *)
Theorem keys_literal_pattern (this : Self) (t : Table) (pattern : string) :
  db this = Some t ->
  pattern <> EmptyString ->
  has_wildcard pattern = false ->
  exists result,
    SQLiteDatabase.keys (Some pattern) this = Resolved result this /\
    (forall key,
       key ∈ result <-> is_Some (t !! key) /\ lower key = lower pattern).
Proof.
  intros Hdb Hne Hw.
  exists (List.filter (like pattern) (map_to_list t).*1). split.
  - rewrite (keys_open this t Hdb).
    destruct pattern; [done|]. by rewrite (escape_pattern_literal _ Hw).
  - intros key. rewrite list_elem_of_In, filter_In, <- list_elem_of_In.
    rewrite (like_literal pattern key Hw), list_elem_of_fmap.
    split.
    + intros [([k row] & -> & Hin) Heq]. apply elem_of_map_to_list in Hin.
      split; [by eexists | done].
    + intros [[row Hrow] Heq]. split; [|done].
      exists (key, row). split; [done|]. by apply elem_of_map_to_list.
Qed.

Lemma keys_literal_pattern_witness :
  db (opened {[ "abc" := plain (tnum 1); "ABC" := plain (tnum 2) ]})
  = Some {[ "abc" := plain (tnum 1); "ABC" := plain (tnum 2) ]} /\
  "Abc" <> EmptyString /\
  has_wildcard "Abc" = false /\
  exists result,
    SQLiteDatabase.keys (Some "Abc")
      (opened {[ "abc" := plain (tnum 1); "ABC" := plain (tnum 2) ]})
    = Resolved result
        (opened {[ "abc" := plain (tnum 1); "ABC" := plain (tnum 2) ]}) /\
    (forall key,
       key ∈ result <->
       is_Some (({[ "abc" := plain (tnum 1); "ABC" := plain (tnum 2) ]} : Table)
                  !! key)
       /\ lower key = lower "Abc").
Proof.
  split; [reflexivity|]. split; [discriminate|]. split; [reflexivity|].
  apply (keys_literal_pattern
           (opened {[ "abc" := plain (tnum 1); "ABC" := plain (tnum 2) ]})
           {[ "abc" := plain (tnum 1); "ABC" := plain (tnum 2) ]} "Abc");
    [reflexivity | discriminate | reflexivity].
Defined.

(** X16. [size] is the number of rows of the table, expired entries
    included. A write adds one to it when the key had no row and leaves it
    as it is when the key had one. *)
Theorem size_after_set (this : Self) (t : Table) (key : string)
    (v : JsValue) (oneTime : bool) (now : Z) :
  db this = Some t ->
  SQLiteKV.size this = Resolved (size t) this /\
  exists this1,
    SQLiteKV.set key v oneTime now this = Resolved true this1 /\
    SQLiteKV.size this1
    = Resolved (if t !! key is Some _ then size t else S (size t)) this1.
Proof.
  intros Hdb. split; [by apply (size_open this t)|].
  eexists. split.
  - unfold SQLiteKV.set, SQLiteKV.ensureInitialized, SQLiteDatabase.set.
    unfold bind at 1, resolve. apply (setWithExpiry_open this t Hdb).
  - erewrite size_open by done. do 2 f_equal.
    unfold read_table.
    destruct (t !! key) as [[[text|] e ot]|] eqn:Hk.
    + destruct (_ || _).
      * rewrite insert_delete_eq. by apply map_size_insert_Some.
      * by apply map_size_insert_Some.
    + by apply map_size_insert_Some.
    + by apply map_size_insert_None.
Qed.

Lemma size_after_set_witness :
  db (opened {[ "a" := plain (tnum 1) ]}) = Some {[ "a" := plain (tnum 1) ]} /\
  SQLiteKV.size (opened {[ "a" := plain (tnum 1) ]})
  = Resolved (size ({[ "a" := plain (tnum 1) ]} : Table))
      (opened {[ "a" := plain (tnum 1) ]}) /\
  exists this1,
    SQLiteKV.set "b" (JString "v") false 0 (opened {[ "a" := plain (tnum 1) ]})
    = Resolved true this1 /\
    SQLiteKV.size this1
    = Resolved
        (if ({[ "a" := plain (tnum 1) ]} : Table) !! "b" is Some _
         then size ({[ "a" := plain (tnum 1) ]} : Table)
         else S (size ({[ "a" := plain (tnum 1) ]} : Table)))
        this1.
Proof.
  split; [reflexivity|].
  apply (size_after_set (opened {[ "a" := plain (tnum 1) ]})
           {[ "a" := plain (tnum 1) ]} "b" (JString "v") false 0).
  reflexivity.
Defined.

(** X17. [clear] empties the store and returns [true]: afterwards [keys]
    returns the empty list, [size] returns 0 and [get] returns [null] for
    every key. *)
Theorem clear_empties (this : Self) (t : Table) :
  db this = Some t ->
  exists this1,
    SQLiteKV.clear this = Resolved true this1 /\
    SQLiteKV.keys None this1 = Resolved [] this1 /\
    SQLiteKV.size this1 = Resolved 0%nat this1 /\
    (forall key now, SQLiteKV.get key now this1 = Resolved JNull this1).
Proof.
  intros Hdb. exists (set_db (Some ∅) this).
  assert (db (set_db (Some ∅) this) = Some ∅) as Hdb' by done.
  split; [|split; [|split]].
  - by apply (clear_open this t).
  - unfold SQLiteKV.keys, SQLiteKV.ensureInitialized. unfold bind, resolve.
    rewrite (keys_open _ _ Hdb'). simpl. by rewrite map_to_list_empty.
  - by rewrite (size_open _ _ Hdb').
  - intros key now. rewrite (kv_get_open _ _ Hdb').
    by rewrite read_value_absent, read_table_absent, set_db_twice.
Qed.

Lemma clear_empties_witness :
  db (opened {[ "a" := plain (tnum 1) ]}) = Some {[ "a" := plain (tnum 1) ]} /\
  exists this1,
    SQLiteKV.clear (opened {[ "a" := plain (tnum 1) ]}) = Resolved true this1 /\
    SQLiteKV.keys None this1 = Resolved [] this1 /\
    SQLiteKV.size this1 = Resolved 0%nat this1 /\
    (forall key now, SQLiteKV.get key now this1 = Resolved JNull this1).
Proof.
  split; [reflexivity|].
  apply (clear_empties (opened {[ "a" := plain (tnum 1) ]})
           {[ "a" := plain (tnum 1) ]}).
  reflexivity.
Defined.

(** ** Increment *)

(** X18. When the value [get] returns for the key is not a number (the key
    is absent, expired, or holds another kind of value), [increment]
    returns [null] and does what that [get] does and no more: no entry is
    written, and on an absent key the store is unchanged. *)
Theorem increment_not_a_number (this : Self) (t : Table) (key : string)
    (amount : spec_float) (now : Z) :
  db this = Some t ->
  exists value this1,
    SQLiteKV.get key now this = Resolved value this1 /\
    (typeof value <> "number" ->
       SQLiteKV.increment key amount now this = Resolved JNull this1) /\
    (t !! key = None ->
       SQLiteKV.increment key amount now this = Resolved JNull this).
Proof.
  intros Hdb. eexists _, _. split; [|split].
  - apply (kv_get_open this t Hdb).
  - intros Htype. unfold SQLiteKV.increment, SQLiteKV.ensureInitialized.
    unfold bind at 1, resolve at 1. unfold bind at 1.
    rewrite (kv_get_open this t Hdb).
    by destruct (read_value t key now).
  - intros Hk. unfold SQLiteKV.increment, SQLiteKV.ensureInitialized.
    unfold bind at 1, resolve at 1. unfold bind at 1.
    rewrite (kv_get_open this t Hdb).
    rewrite read_value_absent, read_table_absent by done.
    by rewrite (set_db_same this t Hdb).
Qed.

Lemma increment_not_a_number_witness :
  db (opened {[ "s" := plain (TString "5") ]})
  = Some {[ "s" := plain (TString "5") ]} /\
  exists value this1,
    SQLiteKV.get "k" 0 (opened {[ "s" := plain (TString "5") ]})
    = Resolved value this1 /\
    (typeof value <> "number" ->
       SQLiteKV.increment "k" (S754_finite false 1 0) 0
         (opened {[ "s" := plain (TString "5") ]})
       = Resolved JNull this1) /\
    (({[ "s" := plain (TString "5") ]} : Table) !! "k" = None ->
       SQLiteKV.increment "k" (S754_finite false 1 0) 0
         (opened {[ "s" := plain (TString "5") ]})
       = Resolved JNull (opened {[ "s" := plain (TString "5") ]})).
Proof.
  split; [reflexivity|].
  apply (increment_not_a_number (opened {[ "s" := plain (TString "5") ]})
           {[ "s" := plain (TString "5") ]} "k" (S754_finite false 1 0) 0).
  reflexivity.
Defined.

(** X19. On a key that holds a number [n] and is not expired, [increment]
    returns [n + amount] and writes it through [set]: the new entry has no
    expiry and no one-time flag, whatever the old one had. A following
    [get] returns the sum when it is finite and not negative zero; a sum
    that is [NaN] or infinite is stored as the text [null]. *)
Theorem increment_number (this : Self) (t : Table) (key : string)
    (n amount : spec_float) (e : option Z) (ot now now1 : Z) :
  db this = Some t ->
  t !! key = Some (mkRow (Some (TNumber n)) e ot) ->
  SQLiteDatabase.expiry_passed e now = false ->
  exists this1,
    SQLiteKV.increment key amount now this
    = Resolved (JNumber (SQLiteKV.Number_add n amount)) this1 /\
    row_after (SQLiteKV.increment key amount now this) key
    = Some (plain (stringify_number (SQLiteKV.Number_add n amount))) /\
    (exact_number (SQLiteKV.Number_add n amount) = true ->
       SQLiteKV.get key now1 this1
       = Resolved (JNumber (SQLiteKV.Number_add n amount)) this1).
Proof.
  intros Hdb Hk He.
  assert (read_value t key now = JNumber n) as Hread.
  { unfold read_value. rewrite Hk. cbv beta iota. by rewrite He. }
  assert (SQLiteKV.increment key amount now this
          = Resolved (JNumber (SQLiteKV.Number_add n amount))
              (set_db (Some (<[key :=
                  plain (stringify_number (SQLiteKV.Number_add n amount))]>
                  (read_table (read_table t key now) key now))) this))
    as Hinc.
  { unfold SQLiteKV.increment, SQLiteKV.ensureInitialized.
    unfold bind at 1, resolve at 1. unfold bind at 1.
    rewrite (kv_get_open this t Hdb), Hread.
    unfold bind at 1. unfold SQLiteKV.set, SQLiteKV.ensureInitialized.
    unfold bind at 1, resolve at 1. unfold SQLiteDatabase.set.
    erewrite setWithExpiry_open by done.
    rewrite set_db_twice. unfold resolve, plain. do 4 f_equal.
    assert (read_table t key now
            = if ot =? 1 then base.delete key t else t) as ->.
    { unfold read_table. rewrite Hk. cbv beta iota. by rewrite He. }
    destruct (ot =? 1).
    - by rewrite read_value_absent by apply lookup_delete_eq.
    - by rewrite Hread. }
  eexists. split; [exact Hinc|]. split.
  - rewrite Hinc. simpl. by rewrite lookup_insert_eq.
  - intros Hexact. erewrite get_open by done.
    unfold plain. rewrite read_value_insert, read_table_insert. simpl.
    rewrite set_db_twice. by rewrite parse_stringify_number.
Qed.

Lemma increment_number_witness :
  db (opened {[ "k" := mkRow (Some (TNumber (S754_finite false 5 0)))
                         (Some 9000) 0 ]})
  = Some {[ "k" := mkRow (Some (TNumber (S754_finite false 5 0)))
                     (Some 9000) 0 ]} /\
  ({[ "k" := mkRow (Some (TNumber (S754_finite false 5 0))) (Some 9000) 0 ]}
     : Table) !! "k"
  = Some (mkRow (Some (TNumber (S754_finite false 5 0))) (Some 9000) 0) /\
  SQLiteDatabase.expiry_passed (Some 9000) 1000 = false /\
  exists this1,
    SQLiteKV.increment "k" (S754_finite false 3 0) 1000
      (opened {[ "k" := mkRow (Some (TNumber (S754_finite false 5 0)))
                          (Some 9000) 0 ]})
    = Resolved
        (JNumber (SQLiteKV.Number_add (S754_finite false 5 0)
                    (S754_finite false 3 0))) this1 /\
    row_after
      (SQLiteKV.increment "k" (S754_finite false 3 0) 1000
         (opened {[ "k" := mkRow (Some (TNumber (S754_finite false 5 0)))
                             (Some 9000) 0 ]})) "k"
    = Some (plain (stringify_number
                     (SQLiteKV.Number_add (S754_finite false 5 0)
                        (S754_finite false 3 0)))) /\
    (exact_number (SQLiteKV.Number_add (S754_finite false 5 0)
                     (S754_finite false 3 0)) = true ->
       SQLiteKV.get "k" 2000 this1
       = Resolved
           (JNumber (SQLiteKV.Number_add (S754_finite false 5 0)
                       (S754_finite false 3 0))) this1).
Proof.
  split; [reflexivity|]. split; [reflexivity|]. split; [reflexivity|].
  apply (increment_number
           (opened {[ "k" := mkRow (Some (TNumber (S754_finite false 5 0)))
                               (Some 9000) 0 ]})
           {[ "k" := mkRow (Some (TNumber (S754_finite false 5 0)))
                       (Some 9000) 0 ]}
           "k" (S754_finite false 5 0) (S754_finite false 3 0)
           (Some 9000) 0 1000 2000); reflexivity.
Defined.

(** ** Loops of operations *)

Lemma map_replicate {A B} (f : A -> B) (n : nat) (x : A) :
  map f (replicate n x) = replicate n (f x).
Proof. induction n as [|n IH]; simpl; by rewrite ?IH. Qed.

Lemma set_appends_element (this : Self) (t : Table) (key : string)
    (x : JsValue) (i : nat) (now : Z) :
  json_exact x = true ->
  db this = Some (<[key := plain (TArray (replicate i (JSON_stringify x)))]> t) ->
  SQLiteDatabase.set key (JArray [x]) false now this
  = Resolved true
      (set_db (Some (<[key :=
         plain (TArray (replicate (S i) (JSON_stringify x)))]> t)) this).
Proof.
  intros Hx Hdb. unfold SQLiteDatabase.set.
  rewrite (setWithExpiry_open this _ Hdb).
  unfold plain. rewrite read_value_insert, read_table_insert. simpl.
  rewrite insert_insert_eq. do 5 f_equal.
  rewrite map_app, map_map, map_replicate. simpl.
  rewrite (JSON_parse_stringify x Hx).
  change (JSON_stringify x :: replicate i (JSON_stringify x))
    with (replicate (S i) (JSON_stringify x)).
  by rewrite replicate_S_end.
Qed.

Lemma loop_appends_elements (key : string) (x : JsValue) (now : Z)
    (t : Table) (n : nat) :
  json_exact x = true ->
  forall (i : nat) (this : Self),
  db this = Some (<[key := plain (TArray (replicate i (JSON_stringify x)))]> t) ->
  SQLiteDatabase.loop n
    (SQLiteDatabase.set key (JArray [x]) false now ;; resolve tt) this
  = Resolved tt
      (set_db (Some (<[key :=
         plain (TArray (replicate (i + n) (JSON_stringify x)))]> t)) this).
Proof.
  intros Hx. induction n as [|n IH]; intros i this Hdb.
  - simpl. unfold resolve. rewrite Nat.add_0_r.
    by rewrite (set_db_same this _ Hdb).
  - simpl. unfold bind at 1. unfold bind at 1.
    rewrite (set_appends_element this t key x i now Hx Hdb).
    unfold resolve at 1. erewrite (IH (S i)) by done.
    rewrite set_db_twice. by rewrite Nat.add_succ_r.
Qed.

(** X20. [performLoopOperations] runs the operation [iterations] times in
    sequence, and not at all for [iterations <= 0]. With the operation
    [set(key, [x])] on a key that was absent, for a value [x] in which
    every number is finite and none is negative zero, the writes
    accumulate: after [n + 1] rounds [get(key)] returns the array of
    [n + 1] copies of [x]. *)
Theorem loop_of_writes_accumulates (this : Self) (t : Table) (key : string)
    (x : JsValue) (n : nat) (iterations now : Z) :
  db this = Some t ->
  t !! key = None ->
  json_exact x = true ->
  (iterations <= 0 ->
     SQLiteDatabase.performLoopOperations
       (SQLiteDatabase.set key (JArray [x]) false now ;; resolve tt)
       iterations this
     = Resolved tt this) /\
  exists this1,
    SQLiteDatabase.performLoopOperations
      (SQLiteDatabase.set key (JArray [x]) false now ;; resolve tt)
      (Z.of_nat (S n)) this
    = Resolved tt this1 /\
    SQLiteDatabase.get key now this1
    = Resolved (JArray (replicate (S n) x)) this1.
Proof.
  intros Hdb Hk Hx. split.
  - intros Hle. unfold SQLiteDatabase.performLoopOperations.
    past_guard Hdb. by rewrite Z2Nat.nonpos.
  - exists (set_db (Some (<[key :=
              plain (TArray (replicate (S n) (JSON_stringify x)))]> t)) this).
    split.
    + unfold SQLiteDatabase.performLoopOperations. unfold bind at 1, read.
      rewrite Hdb, Nat2Z.id. cbn [SQLiteDatabase.loop].
      unfold bind at 1. unfold bind at 1. unfold SQLiteDatabase.set.
      rewrite (setWithExpiry_open this t Hdb).
      rewrite read_value_absent, read_table_absent by done.
      unfold resolve at 1.
      erewrite (loop_appends_elements key x now t n Hx 1) by done.
      by rewrite set_db_twice.
    + erewrite get_open by done. unfold plain.
      rewrite read_value_insert, read_table_insert, set_db_twice. simpl.
      do 2 f_equal.
      by rewrite map_replicate, (JSON_parse_stringify x Hx).
Qed.

Lemma loop_of_writes_accumulates_witness :
  db (opened ∅) = Some ∅ /\
  (∅ : Table) !! "log" = None /\
  json_exact (JString "x") = true /\
  ((-1) <= 0 ->
     SQLiteDatabase.performLoopOperations
       (SQLiteDatabase.set "log" (JArray [JString "x"]) false 0 ;; resolve tt)
       (-1) (opened ∅)
     = Resolved tt (opened ∅)) /\
  exists this1,
    SQLiteDatabase.performLoopOperations
      (SQLiteDatabase.set "log" (JArray [JString "x"]) false 0 ;; resolve tt)
      (Z.of_nat 3) (opened ∅)
    = Resolved tt this1 /\
    SQLiteDatabase.get "log" 0 this1
    = Resolved (JArray (replicate 3 (JString "x"))) this1.
Proof.
  split; [reflexivity|]. split; [reflexivity|]. split; [reflexivity|].
  apply (loop_of_writes_accumulates (opened ∅) ∅ "log" (JString "x") 2 (-1) 0);
    reflexivity.
Defined.

(** ** Writing a value twice *)

Lemma newValue_same (v : JsValue) :
  SQLiteDatabase.newValue v v =
  match v with
  | JArray l => JArray (l ++ l)
  | _ => v
  end.
Proof.
  destruct v as [|b|n|s|l|m]; try reflexivity.
  unfold SQLiteDatabase.newValue, spread2. simpl. by rewrite (idemp (∪) m).
Qed.

(** X21. Writing the same value a second time is harmless for a string, a
    number, a boolean and an object, which read back unchanged, but not
    for an array: the second write appends it to itself. *)
Theorem write_twice (this : Self) (t : Table) (key : string) (v : JsValue)
    (now0 now1 now2 : Z) :
  db this = Some t ->
  t !! key = None ->
  json_exact v = true ->
  exists this1 this2 this3,
    SQLiteDatabase.set key v false now0 this = Resolved true this1 /\
    SQLiteDatabase.set key v false now1 this1 = Resolved true this2 /\
    SQLiteDatabase.get key now2 this2
    = Resolved match v with JArray l => JArray (l ++ l) | _ => v end this3.
Proof.
  intros Hdb Hk Hv. rewrite <- newValue_same.
  by apply (two_writes_then_read this t).
Qed.

Lemma write_twice_witness :
  db (opened ∅) = Some ∅ /\
  (∅ : Table) !! "k" = None /\
  json_exact (JArray [num 1]) = true /\
  exists this1 this2 this3,
    SQLiteDatabase.set "k" (JArray [num 1]) false 0 (opened ∅)
    = Resolved true this1 /\
    SQLiteDatabase.set "k" (JArray [num 1]) false 1 this1
    = Resolved true this2 /\
    SQLiteDatabase.get "k" 2 this2
    = Resolved
        match JArray [num 1] with JArray l => JArray (l ++ l) | _ => JArray [num 1] end
        this3.
Proof.
  split; [reflexivity|]. split; [reflexivity|]. split; [reflexivity|].
  apply (write_twice (opened ∅) ∅ "k" (JArray [num 1]) 0 1 2); reflexivity.
Defined.

(** ** A key listed several times in [mget] *)

Lemma filter_not_null_replicate (n : nat) (v : JsValue) :
  v <> JNull -> List.filter not_null (replicate n v) = replicate n v.
Proof.
  intros Hv. induction n as [|n IH]; [done|].
  simpl. rewrite IH. by destruct v.
Qed.

Lemma get_resume_one_time (this : Self) (t' : Table) (key : string)
    (text : JsonText) (e : option Z) (now : Z) :
  db this = Some t' ->
  SQLiteDatabase.expiry_passed e now = false ->
  SQLiteDatabase.get_resume key now
    (Some (Some (mkRow (Some text) e 1))) this
  = Resolved (JSON_parse text) (set_db (Some (base.delete key t')) this).
Proof.
  intros Hdb He. rewrite (get_resume_open this t' key now _ Hdb).
  by rewrite He.
Qed.

Lemma mapM_get_resume_repeated (key : string) (text : JsonText)
    (e : option Z) (now : Z) (n : nat) :
  SQLiteDatabase.expiry_passed e now = false ->
  forall (this : Self) (t' : Table),
  db this = Some t' ->
  mapM (fun '(key, row) => SQLiteDatabase.get_resume key now row)
    (zip (replicate (S n) key)
         (replicate (S n) (Some (Some (mkRow (Some text) e 1))))) this
  = Resolved (replicate (S n) (JSON_parse text))
      (set_db (Some (base.delete key t')) this).
Proof.
  intros He. induction n as [|n IH]; intros this t' Hdb.
  - cbn [replicate zip zip_with mapM]. unfold bind at 1.
    rewrite (get_resume_one_time this t' key text e now Hdb He).
    by unfold bind, resolve.
  - change (replicate (S (S n)) key) with (key :: replicate (S n) key).
    change (replicate (S (S n)) ?x) with (x :: replicate (S n) x).
    cbn [zip zip_with mapM]. unfold bind at 1.
    rewrite (get_resume_one_time this t' key text e now Hdb He).
    unfold bind at 1.
    rewrite (IH (set_db (Some (base.delete key t')) this)
               (base.delete key t') eq_refl).
    unfold resolve.
    by rewrite set_db_twice, delete_delete_eq.
Qed.

(** X22. [mget] starts all its reads before any of them deletes, so a key
    listed several times is read each time from the row as [mget] found
    it: for a one-time entry that is not expired and whose value is not
    [null], [mget] with the key listed [n + 1] times returns the value
    [n + 1] times; the entry is deleted, and a later [get] returns
    [null]. *)
Theorem mget_repeated_one_time (this : Self) (t : Table) (key : string)
    (text : JsonText) (e : option Z) (n : nat) (now now1 : Z) :
  db this = Some t ->
  t !! key = Some (mkRow (Some text) e 1) ->
  SQLiteDatabase.expiry_passed e now = false ->
  JSON_parse text <> JNull ->
  SQLiteKV.mget (replicate (S n) key) now this
  = Resolved (replicate (S n) (JSON_parse text))
      (set_db (Some (base.delete key t)) this) /\
  SQLiteKV.get key now1 (set_db (Some (base.delete key t)) this)
  = Resolved JNull (set_db (Some (base.delete key t)) this).
Proof.
  intros Hdb Hk He Hv. split.
  - unfold SQLiteKV.mget, SQLiteKV.ensureInitialized.
    unfold bind at 1, resolve at 1. unfold bind at 1.
    rewrite (mapM_get_select_open _ this t Hdb).
    rewrite map_replicate, Hk.
    unfold bind at 1.
    rewrite (mapM_get_resume_repeated key text e now n He this t Hdb).
    unfold resolve. by rewrite filter_not_null_replicate.
  - erewrite kv_get_open by done.
    rewrite read_value_absent, read_table_absent by apply lookup_delete_eq.
    by rewrite set_db_twice.
Qed.

Lemma mget_repeated_one_time_witness :
  db (opened {[ "k" := mkRow (Some (TString "v")) None 1 ]})
  = Some {[ "k" := mkRow (Some (TString "v")) None 1 ]} /\
  ({[ "k" := mkRow (Some (TString "v")) None 1 ]} : Table) !! "k"
  = Some (mkRow (Some (TString "v")) None 1) /\
  SQLiteDatabase.expiry_passed None 0 = false /\
  JSON_parse (TString "v") <> JNull /\
  SQLiteKV.mget (replicate 2 "k") 0
    (opened {[ "k" := mkRow (Some (TString "v")) None 1 ]})
  = Resolved (replicate 2 (JSON_parse (TString "v")))
      (set_db (Some (base.delete "k"
                 {[ "k" := mkRow (Some (TString "v")) None 1 ]}))
         (opened {[ "k" := mkRow (Some (TString "v")) None 1 ]})) /\
  SQLiteKV.get "k" 5
    (set_db (Some (base.delete "k"
               {[ "k" := mkRow (Some (TString "v")) None 1 ]}))
       (opened {[ "k" := mkRow (Some (TString "v")) None 1 ]}))
  = Resolved JNull
      (set_db (Some (base.delete "k"
                 {[ "k" := mkRow (Some (TString "v")) None 1 ]}))
         (opened {[ "k" := mkRow (Some (TString "v")) None 1 ]})).
Proof.
  split; [reflexivity|]. split; [reflexivity|]. split; [reflexivity|].
  split; [discriminate|].
  apply (mget_repeated_one_time
           (opened {[ "k" := mkRow (Some (TString "v")) None 1 ]})
           {[ "k" := mkRow (Some (TString "v")) None 1 ]}
           "k" (TString "v") None 1 0 5);
    [reflexivity | reflexivity | reflexivity | discriminate].
Defined.
